(** * ItmoParser: the rating extractor, cache and filter engine

    A shallow embedding of [app.py] (the web application) and [main.py]
    (the stand-alone script) together with the properties their
    specification states about them.

    Modelling conventions
    - a Python [str] is the list of its code points;
    - a Python [int] is a [Z], a Python [float] is an IEEE-754 binary64
      ([PrimFloat.float]);
    - an [Applicant] object lives in a heap and is named by a reference:
      lists hold references, so two list slots may name the same object;
    - a raised exception is the [Err] branch of [result];
    - the built-ins [str.lower], [int(str)] and [float(str)] are parameters
      ([PyBuiltins]): nothing is assumed about them. *)

From Stdlib Require Import ZArith NArith Floats String Ascii.
From stdpp Require Import gmap list sorting strings.

Local Open Scope Z_scope.

(** ** Python values and built-ins *)

Definition str := list N.

(** The code points of an ASCII literal. *)
Definition lit (s : string) : str :=
  List.map N_of_ascii (list_ascii_of_string s).

(** [str.isspace] on one code point (the Unicode white-space characters). *)
Definition isspace (c : N) : bool :=
  ((9 <=? c) && (c <=? 13) || (28 <=? c) && (c <=? 32) ||
   (c =? 133) || (c =? 160) || (c =? 5760) ||
   (8192 <=? c) && (c <=? 8202) ||
   (c =? 8232) || (c =? 8233) || (c =? 8239) || (c =? 8287) || (c =? 12288))%N.

Fixpoint lstrip (s : str) : str :=
  match s with
  | c :: s' => if isspace c then lstrip s' else s
  | [] => []
  end.

Definition strip (s : str) : str := reverse (lstrip (reverse (lstrip s))).

(** Truth value of a string: empty is false. *)
Definition nonempty (s : str) : bool :=
  match s with [] => false | _ :: _ => true end.

(** Truth value of an [Optional[str]]: [None] and the empty string are false. *)
Definition truthy (o : option str) : bool :=
  match o with Some s => nonempty s | None => false end.

Fixpoint startswith (s prefix : str) : bool :=
  match prefix, s with
  | [], _ => true
  | p :: prefix', c :: s' => (p =? c)%N && startswith s' prefix'
  | _ :: _, [] => false
  end.

(** [needle in hay] on strings. *)
Fixpoint contains (hay needle : str) : bool :=
  startswith hay needle ||
  match hay with
  | [] => false
  | _ :: hay' => contains hay' needle
  end.

(** Exceptions, by class; [Exception cause] is the re-raised
    [Exception(f"Ошибка парсинга: {cause}")]. *)
Inductive exn : Type :=
| TypeError
| ValueError
| AttributeError
| ConnectionError
| HTTPError
| Exception (cause : exn).

Inductive result (A : Type) : Type :=
| Ok (a : A)
| Err (e : exn).
Arguments Ok {A} a.
Arguments Err {A} e.

Definition bind {A B} (m : result A) (k : A -> result B) : result B :=
  match m with
  | Ok a => k a
  | Err e => Err e
  end.

Definition rmap {A B} (f : A -> B) (m : result A) : result B :=
  bind m (fun a => Ok (f a)).

Notation "x <- m ;; k" := (bind m (fun x => k))
  (at level 100, m at next level, right associativity, only parsing).

(** [min(a, b)] and [max(a, b)] on [Optional[int]] arguments: ordering
    [None] against anything raises [TypeError]. *)
Definition py_min (a b : option Z) : result (option Z) :=
  match a, b with
  | Some x, Some y => Ok (Some (if y <? x then y else x))
  | _, _ => Err TypeError
  end.

Definition py_max (a b : option Z) : result (option Z) :=
  match a, b with
  | Some x, Some y => Ok (Some (if y >? x then y else x))
  | _, _ => Err TypeError
  end.

Definition is_Some_b {A} (o : option A) : bool :=
  match o with Some _ => true | None => false end.

(** Built-ins whose tables are not part of the program. *)
Record PyBuiltins : Type := {
  lower : str -> str;                 (* str.lower *)
  py_int : str -> option Z;           (* int(s); None when it raises ValueError *)
  py_float : str -> option float      (* float(s); None when it raises ValueError *)
}.

(** [sorted(l, key=key)]: ascending and stable. *)
Section Sorted.
Context {A : Type} (key : A -> Z).

Fixpoint insert_by (x : A) (l : list A) : list A :=
  match l with
  | [] => [x]
  | y :: l' => if key y <? key x then y :: insert_by x l' else x :: l
  end.

Fixpoint sorted (l : list A) : list A :=
  match l with
  | [] => []
  | x :: l' => insert_by x (sorted l')
  end.

(** The order the result is in. *)
Definition key_le (a b : A) : Prop := key a <= key b.

End Sorted.

(** [s < t] on strings: lexicographic by code point. *)
Fixpoint str_ltb (s t : str) : bool :=
  match s, t with
  | _, [] => false
  | [], _ :: _ => true
  | c :: s', d :: t' => (c <? d)%N || (c =? d)%N && str_ltb s' t'
  end.

(** [sorted(l)] on a list of strings. *)
Fixpoint insert_str (x : str) (l : list str) : list str :=
  match l with
  | [] => [x]
  | y :: l' => if str_ltb y x then y :: insert_str x l' else x :: l
  end.

Fixpoint sorted_strs (l : list str) : list str :=
  match l with
  | [] => []
  | x :: l' => insert_str x (sorted_strs l')
  end.

(** Literals of the program. *)
Definition s_All : str := [1042; 1089; 1077]%N.   (* "Все" *)
Definition s_BVI : str := [1041; 1042; 1048]%N.   (* "БВИ" *)
Definition s_VE : str := [1042; 1069]%N.          (* "ВЭ" *)
Definition s_da : str := [1076; 1072]%N.          (* "да" *)

(** ** The rating page

    What the markup selectors of the program find on a card: the text of
    each labelled field, or [None] when the node is missing (reading it
    then raises). *)
Record Card : Type := mkCard {
  position_text : option str;        (* position block, contents[0] *)
  application_id_text : option str;  (* position block, span *)
  exam_type_text : option str;       (* "Вид испытания:" *)
  exam_id_text : option str;         (* "ИД:" *)
  exam_score_text : option str;      (* "Балл ВИ:" *)
  total_score_text : option str;     (* "Балл ВИ+ИД:" *)
  average_score_text : option str;   (* "Средний балл:" *)
  priority_text : option str;        (* "Приоритет:" *)
  ovp_text : option str;             (* "Основной высший приоритет:" *)
  vpp_text : option str;             (* "Высший проходной приоритет:" *)
  consent_text : option str          (* "Есть согласие:" *)
}.

(** A response of the site: whether its status is a success, and the
    card blocks [soup.select('.RatingPage_table__item__qMY0F')] finds. *)
Record Response : Type := mkResponse {
  status_ok : bool;
  cards : list Card
}.

(** [requests.get]: [None] when the transport fails. *)
Definition network := str -> option Response.

Definition text_of (node : option str) : result str :=
  match node with
  | Some s => Ok s
  | None => Err AttributeError
  end.

Definition to_int (B : PyBuiltins) (s : str) : result Z :=
  match py_int B s with
  | Some z => Ok z
  | None => Err ValueError
  end.

Definition to_float (B : PyBuiltins) (s : str) : result float :=
  match py_float B s with
  | Some x => Ok x
  | None => Err ValueError
  end.

(** [node.text.strip().lower() == 'да'] *)
Definition is_yes (B : PyBuiltins) (s : str) : bool :=
  bool_decide (lower B (strip s) = s_da).

(** The outer [except Exception as e: raise Exception(...)]. *)
Definition reraise {A} (m : result A) : result A :=
  match m with
  | Ok a => Ok a
  | Err e => Err (Exception e)
  end.

(** ** app.py *)

Module App.

(** References to [Applicant] objects. *)
Definition ref := nat.

Record Applicant : Type := mkApplicant {
  position : Z;
  application_id : str;
  exam_type : str;
  exam_id : Z;
  exam_score : float;
  total_score : float;
  average_score : float;
  priority : Z;
  ovp : bool;
  vpp : bool;
  consent : bool;
  filtered_position : Z
}.

(** The object store: what each reference currently holds. *)
Definition heap := ref -> Applicant.

(** [app.filtered_position = idx] on one object value. *)
Definition with_filtered_position (a : Applicant) (idx : Z) : Applicant :=
  {| position := position a; application_id := application_id a;
     exam_type := exam_type a; exam_id := exam_id a;
     exam_score := exam_score a; total_score := total_score a;
     average_score := average_score a; priority := priority a;
     ovp := ovp a; vpp := vpp a; consent := consent a;
     filtered_position := idx |}.

(** [app.filtered_position = idx] on the object [app] of the store. *)
Definition set_filtered_position (h : heap) (app : ref) (idx : Z) : heap :=
  fun r => if Nat.eqb r app then with_filtered_position (h app) idx else h r.

(** The keyword arguments of [filter_applicants]. *)
Record filter_args : Type := mkArgs {
  arg_ovp : option bool;
  arg_vpp : option bool;
  arg_consent : option bool;
  arg_search_id : option str;
  arg_exam_type : option str;
  arg_stats_id : option str;
  arg_average_score_op : option str;
  arg_average_score_val : option str;
  arg_exam_score_op : option str;
  arg_exam_score_val : option str;
  arg_total_score_op : option str;
  arg_total_score_val : option str;
  arg_priority_min : option Z;
  arg_priority_max : option Z
}.

(** The [stats] dictionary: empty, [{"not_found": True}], or the cohort. *)
Inductive Stats : Type :=
| StatsEmpty
| StatsNotFound
| StatsCohort (total_before_me bvi_before ovp_before consent_before : nat)
              (my_row : ref).

(** The dictionary [filter_applicants] returns. *)
Record FilterResult : Type := mkResult {
  applicants : list ref;
  total_count : nat;
  filtered_count : nat;
  stats : Stats;
  stats_list : list ref
}.

(** The nested [cmp(value, op, ref)]. *)
Definition cmp (value : float) (op : str) (ref : float) : bool :=
  if decide (op = lit "ge") then PrimFloat.leb ref value
  else if decide (op = lit "g") then PrimFloat.ltb ref value
  else if decide (op = lit "le") then PrimFloat.leb value ref
  else if decide (op = lit "l") then PrimFloat.ltb value ref
  else if decide (op = lit "eq") then PrimFloat.eqb value ref
  else true.

(** The loop [for idx, app in enumerate(filtered_sorted, 1)]. *)
Fixpoint assign_positions (h : heap) (l : list ref) (idx : Z) : heap :=
  match l with
  | [] => h
  | app :: l' => assign_positions (set_filtered_position h app idx) l' (idx + 1)
  end.

(** [next((i for i, a in enumerate(l) if a.application_id == stats_id), None)]. *)
Definition idx_myself (h : heap) (l : list ref) (stats_id : str) : option nat :=
  fst <$> list_find (fun a => application_id (h a) = stats_id) l.

(** Lines 145-162: the cohort in front of [stats_id]. *)
Definition cohort (h : heap) (filtered_sorted : list ref) (stats_id : option str)
  : Stats * list ref :=
  if truthy stats_id && nonempty (strip (default [] stats_id)) then
    let stats_id := strip (default [] stats_id) in
    match idx_myself h filtered_sorted stats_id with
    | Some i =>
        let before_me := take i filtered_sorted in
        (StatsCohort
           (length before_me)
           (length (filter (fun a => exam_type (h a) <> s_VE) before_me))
           (length (filter (fun a => ovp (h a) = true) before_me))
           (length (filter (fun a => consent (h a) = true) before_me))
           (nth i filtered_sorted 0%nat),
         before_me)
    | None => (StatsNotFound, [])
    end
  else (StatsEmpty, []).

Section Filter.
Context (B : PyBuiltins).

(** One numeric comparison: lines 118-123, 125-130 and 132-137. *)
Definition score_filter (h : heap) (field : Applicant -> float)
    (op val : option str) (filtered : list ref) : list ref :=
  if truthy op && truthy val then
    match py_float B (default [] val) with
    | Some v => filter (fun a => cmp (field (h a)) (default [] op) v = true) filtered
    | None => filtered
    end
  else filtered.

Definition filter_applicants (h : heap) (applicants : list ref) (args : filter_args)
  : result (heap * FilterResult) :=
  let filtered := applicants in
  let filtered :=
    match arg_ovp args with
    | Some b => filter (fun a => ovp (h a) = b) filtered
    | None => filtered
    end in
  let filtered :=
    match arg_vpp args with
    | Some b => filter (fun a => vpp (h a) = b) filtered
    | None => filtered
    end in
  let filtered :=
    match arg_consent args with
    | Some b => filter (fun a => consent (h a) = b) filtered
    | None => filtered
    end in
  let filtered :=
    if truthy (arg_search_id args)
       && nonempty (strip (default [] (arg_search_id args))) then
      let search_id := default [] (arg_search_id args) in
      filter (fun a => contains (lower B (application_id (h a)))
                                (lower B (strip search_id)) = true) filtered
    else filtered in
  let filtered :=
    if truthy (arg_exam_type args)
       && bool_decide (arg_exam_type args <> Some s_All)
       && nonempty (strip (default [] (arg_exam_type args))) then
      let exam_type' := default [] (arg_exam_type args) in
      if decide (exam_type' = s_BVI) then
        filter (fun a => exam_type (h a) <> s_VE) filtered
      else
        filter (fun a => exam_type (h a) = exam_type') filtered
    else filtered in
  priority_min <- py_min (arg_priority_min args) (arg_priority_max args) ;;
  priority_max <- py_max (arg_priority_min args) (arg_priority_max args) ;;
  let filtered :=
    match priority_min with
    | Some lo => filter (fun a => priority (h a) >= lo) filtered
    | None => filtered
    end in
  let filtered :=
    match priority_max with
    | Some hi => filter (fun a => priority (h a) <= hi) filtered
    | None => filtered
    end in
  let filtered :=
    score_filter h average_score (arg_average_score_op args)
                 (arg_average_score_val args) filtered in
  let filtered :=
    score_filter h exam_score (arg_exam_score_op args)
                 (arg_exam_score_val args) filtered in
  let filtered :=
    score_filter h total_score (arg_total_score_op args)
                 (arg_total_score_val args) filtered in
  let filtered_sorted := sorted (fun x => position (h x)) filtered in
  let h := assign_positions h filtered_sorted 1 in
  let '(stats, stats_list) := cohort h filtered_sorted (arg_stats_id args) in
  Ok (h, {| applicants := filtered_sorted;
            total_count := length applicants;
            filtered_count := length filtered;
            stats := stats;
            stats_list := stats_list |}).

End Filter.

Section Extractor.
Context (B : PyBuiltins).

(** The body of the per-card [try] block, lines 184-203. *)
Definition card_to_applicant (card : Card) : result Applicant :=
  position_block <- text_of (position_text card) ;;
  position <- to_int B (strip position_block) ;;
  application_id <- rmap strip (text_of (application_id_text card)) ;;
  exam_type <- rmap strip (text_of (exam_type_text card)) ;;
  exam_id <- bind (text_of (exam_id_text card)) (to_int B) ;;
  exam_score <- bind (text_of (exam_score_text card)) (to_float B) ;;
  total_score <- bind (text_of (total_score_text card)) (to_float B) ;;
  average_score <- bind (text_of (average_score_text card)) (to_float B) ;;
  priority <- bind (text_of (priority_text card)) (to_int B) ;;
  ovp <- rmap (is_yes B) (text_of (ovp_text card)) ;;
  vpp <- rmap (is_yes B) (text_of (vpp_text card)) ;;
  consent <- rmap (is_yes B) (text_of (consent_text card)) ;;
  Ok {| position := position; application_id := application_id;
        exam_type := exam_type; exam_id := exam_id;
        exam_score := exam_score; total_score := total_score;
        average_score := average_score; priority := priority;
        ovp := ovp; vpp := vpp; consent := consent;
        filtered_position := 0 |}.

(** The loop [for card in cards], lines 182-206. *)
Fixpoint parse_cards (cards : list Card) (applicants : list Applicant)
  : list Applicant :=
  match cards with
  | [] => applicants
  | card :: rest =>
      match card_to_applicant card with
      | Ok a => parse_cards rest (applicants ++ [a])
      | Err _ => parse_cards rest applicants
      end
  end.

(** The values of the freshly built objects, in page order. *)
Definition parse_itmo_rating (net : network) (url : str) : result (list Applicant) :=
  reraise (
    match net url with
    | None => Err ConnectionError
    | Some response =>
        if status_ok response then Ok (parse_cards (cards response) [])
        else Err HTTPError
    end).

End Extractor.

(** *** The cache *)

Definition CACHE_TTL : float := 300%float.

(** One value of [app_data['cached_applicants']]. *)
Record CacheEntry : Type := mkEntry {
  ts : float;
  data : list ref
}.

(** The mutable state the cache functions touch: the store of objects
    (with the next unused reference), [app_data['cached_applicants']], and
    the calls handed to [executor.submit]. *)
Record AppState : Type := mkState {
  objects : heap;
  next_ref : ref;
  cached_applicants : gmap str CacheEntry;
  submitted : list str
}.

(** Binding freshly built objects to new references. *)
Fixpoint new_objects (h : heap) (next : ref) (values : list Applicant)
  : heap * ref * list ref :=
  match values with
  | [] => (h, next, [])
  | v :: values' =>
      let '(h', next', refs) :=
        new_objects (fun r => if Nat.eqb r next then v else h r) (S next) values' in
      (h', next', next :: refs)
  end.

Definition store_entry (st : AppState) (url : str) (now : float)
    (values : list Applicant) : list ref * AppState :=
  let '(h, next, refs) := new_objects (objects st) (next_ref st) values in
  (refs, {| objects := h; next_ref := next;
            cached_applicants := <[url := mkEntry now refs]> (cached_applicants st);
            submitted := submitted st |}).

(** [executor.submit(parse_and_cache, url)] *)
Definition executor_submit (st : AppState) (url : str) : AppState :=
  {| objects := objects st; next_ref := next_ref st;
     cached_applicants := cached_applicants st;
     submitted := submitted st ++ [url] |}.

Section Cache.
Context (B : PyBuiltins).

(** [now] is the reading of [time.time()] after the extraction. *)
Definition parse_and_cache (net : network) (now : float) (url : str)
    (st : AppState) : AppState :=
  match parse_itmo_rating B net url with
  | Ok applicants => snd (store_entry st url now applicants)
  | Err _ => st
  end.

Definition get_applicants_with_cache (net : network) (now : float) (url : str)
    (st : AppState) : result (list ref * AppState) :=
  let entry := cached_applicants st !! url in
  match entry with
  | Some e =>
      if PrimFloat.ltb (PrimFloat.sub now (ts e)) CACHE_TTL then Ok (data e, st)
      else Ok (data e, executor_submit st url)
  | None =>
      data <- parse_itmo_rating B net url ;;
      Ok (store_entry st url now data)
  end.

(** A worker of the pool taking the oldest submitted call. *)
Definition run_submitted (net : network) (now : float) (st : AppState) : AppState :=
  match submitted st with
  | [] => st
  | url :: rest =>
      parse_and_cache net now url
        {| objects := objects st; next_ref := next_ref st;
           cached_applicants := cached_applicants st; submitted := rest |}
  end.

End Cache.

(** *** The route *)

(** [get_unique_exam_types]: the set comprehension of line 61. *)
Definition get_unique_exam_types (h : heap) (applicants : list ref) : gset str :=
  list_to_set
    (List.map (fun app => exam_type (h app))
       (filter (fun app => strip (exam_type (h app)) <> []) applicants)).

Definition default_url : str := lit "https://abit.itmo.ru/rating/master/budget/2225".

(** The route answers [GET] and [POST] only. *)
Inductive method : Type := GET | POST.

(** [request.form]: the posted fields by name. *)
Definition form := gmap string str.

(** [request.form.get(key, default)] *)
Definition form_get (f : form) (key : string) (dflt : str) : str :=
  default dflt (f !! key).

(** The values held by the [filters] dictionary. *)
Inductive pyval : Type :=
| VNone
| VBool (b : bool)
| VStr (s : str)
| VInt (z : Z).

Definition of_flag (o : option bool) : pyval :=
  match o with Some b => VBool b | None => VNone end.

Definition of_int (o : option Z) : pyval :=
  match o with Some z => VInt z | None => VNone end.

(** The nested [parse_tri_state]. *)
Definition parse_tri_state (value : str) : option bool :=
  if decide (value = lit "any") then None
  else Some (bool_decide (value = lit "yes")).

(** [app_data]. *)
Record AppData : Type := mkData {
  app_state : AppState;
  exam_types : gset str;
  last_url : option str
}.

(** The keyword arguments handed to [render_template]. *)
Record Page : Type := mkPage {
  page_applicants : list ref;
  page_exam_types : list str;
  page_error : option exn;
  page_filters : gmap string pyval;
  page_total_count : nat;
  page_filtered_count : nat;
  page_stats : Stats;
  page_stats_list : list ref
}.

(** The [filters] of a [GET], lines 223-230. *)
Definition default_filters : gmap string pyval :=
  <["ovp" := VNone]> (<["vpp" := VNone]> (<["consent" := VNone]>
  (<["search_id" := VStr []]> (<["exam_type" := VStr s_All]>
  (<["url" := VStr default_url]> ∅))))).

(** The page of the initial [result], with [stats] and [stats_list]
    absent from it. *)
Definition empty_page_of (types : gset str) (error : option exn)
    (filters : gmap string pyval) : Page :=
  {| page_applicants := []; page_exam_types := sorted_strs (elements types);
     page_error := error; page_filters := filters;
     page_total_count := 0; page_filtered_count := 0;
     page_stats := StatsEmpty; page_stats_list := [] |}.

Section Route.
Context (B : PyBuiltins).

(** Lines 236-247: a priority field of the form as an [Optional[int]]. *)
Definition form_priority (f : form) (key : string) : option Z :=
  match f !! key with
  | Some s => if nonempty s then py_int B s else None
  | None => None
  end.

(** The keyword arguments [index] passes to [filter_applicants]. *)
Definition form_args (f : form) : filter_args :=
  {| arg_ovp := parse_tri_state (form_get f "ovp" (lit "any"));
     arg_vpp := parse_tri_state (form_get f "vpp" (lit "any"));
     arg_consent := parse_tri_state (form_get f "consent" (lit "any"));
     arg_search_id := Some (strip (form_get f "search_id" []));
     arg_exam_type := Some (form_get f "exam_type" s_All);
     arg_stats_id := Some (strip (form_get f "stats_id" []));
     arg_average_score_op := Some (form_get f "average_score_op" []);
     arg_average_score_val := Some (form_get f "average_score_val" []);
     arg_exam_score_op := Some (form_get f "exam_score_op" []);
     arg_exam_score_val := Some (form_get f "exam_score_val" []);
     arg_total_score_op := Some (form_get f "total_score_op" []);
     arg_total_score_val := Some (form_get f "total_score_val" []);
     arg_priority_min := form_priority f "priority_min";
     arg_priority_max := form_priority f "priority_max" |}.

(** The [filters] of a [POST], lines 249-267. *)
Definition form_filters (f : form) : gmap string pyval :=
  let args := form_args f in
  <["ovp" := of_flag (arg_ovp args)]> (<["vpp" := of_flag (arg_vpp args)]>
  (<["consent" := of_flag (arg_consent args)]>
  (<["search_id" := VStr (strip (form_get f "search_id" []))]>
  (<["exam_type" := VStr (form_get f "exam_type" s_All)]>
  (<["url" := VStr (form_get f "url" default_url)]>
  (<["stats_id" := VStr (strip (form_get f "stats_id" []))]>
  (<["average_score_op" := VStr (form_get f "average_score_op" [])]>
  (<["average_score_val" := VStr (form_get f "average_score_val" [])]>
  (<["exam_score_op" := VStr (form_get f "exam_score_op" [])]>
  (<["exam_score_val" := VStr (form_get f "exam_score_val" [])]>
  (<["total_score_op" := VStr (form_get f "total_score_op" [])]>
  (<["total_score_val" := VStr (form_get f "total_score_val" [])]>
  (<["priority_min" := of_int (arg_priority_min args)]>
  (<["priority_max" := of_int (arg_priority_max args)]> ∅)))))))))))))).

(** [index]: the page rendered and [app_data] afterwards. [now] is the
    reading of [time.time()] inside [get_applicants_with_cache]. *)
Definition index (net : network) (now : float) (m : method) (f : form)
    (ad : AppData) : Page * AppData :=
  match m with
  | POST =>
      let filters := form_filters f in
      let url := form_get f "url" default_url in
      match get_applicants_with_cache B net now url (app_state ad) with
      | Err e => (empty_page_of (exam_types ad) (Some e) filters, ad)
      | Ok (applicants', st) =>
          let types :=
            if decide (Some url <> last_url ad)
            then get_unique_exam_types (objects st) applicants'
            else exam_types ad in
          match filter_applicants B (objects st) applicants' (form_args f) with
          | Err e =>
              (empty_page_of types (Some e) filters,
               {| app_state := st; exam_types := types; last_url := Some url |})
          | Ok (h, result) =>
              ({| page_applicants := applicants result;
                  page_exam_types := sorted_strs (elements types);
                  page_error := None; page_filters := filters;
                  page_total_count := total_count result;
                  page_filtered_count := filtered_count result;
                  page_stats := stats result;
                  page_stats_list := stats_list result |},
               {| app_state :=
                    {| objects := h; next_ref := next_ref st;
                       cached_applicants := cached_applicants st;
                       submitted := submitted st |};
                  exam_types := types; last_url := Some url |})
          end
      end
  | GET =>
      if decide (exam_types ad = ∅) then
        match get_applicants_with_cache B net now default_url (app_state ad) with
        | Err e => (empty_page_of (exam_types ad) (Some e) default_filters, ad)
        | Ok (applicants', st) =>
            let types := get_unique_exam_types (objects st) applicants' in
            (empty_page_of types None default_filters,
             {| app_state := st; exam_types := types;
                last_url := Some default_url |})
        end
      else (empty_page_of (exam_types ad) None default_filters, ad)
  end.

End Route.

End App.

(** ** main.py *)

Module Main.

Record Applicant : Type := mkApplicant {
  position : Z;
  application_id : str;
  exam_type : str;
  exam_id : Z;
  exam_score : float;
  total_score : float;
  average_score : float;
  priority : Z;
  ovp : bool;
  vpp : bool;
  consent : bool
}.

Definition filter_applicants (applicants : list Applicant)
    (ovp' vpp' consent' : option bool) : list Applicant :=
  let filtered := applicants in
  let filtered :=
    match ovp' with
    | Some b => filter (fun a => ovp a = b) filtered
    | None => filtered
    end in
  let filtered :=
    match vpp' with
    | Some b => filter (fun a => vpp a = b) filtered
    | None => filtered
    end in
  let filtered :=
    match consent' with
    | Some b => filter (fun a => consent a = b) filtered
    | None => filtered
    end in
  sorted position filtered.

Section Extractor.
Context (B : PyBuiltins).

Definition parse_applicant_card (card : Card) : result Applicant :=
  position_block <- text_of (position_text card) ;;
  position <- to_int B (strip position_block) ;;
  application_id <- rmap strip (text_of (application_id_text card)) ;;
  priority <- bind (text_of (priority_text card)) (to_int B) ;;
  exam_type <- rmap strip (text_of (exam_type_text card)) ;;
  exam_id <- bind (text_of (exam_id_text card)) (to_int B) ;;
  exam_score <- bind (text_of (exam_score_text card)) (to_float B) ;;
  total_score <- bind (text_of (total_score_text card)) (to_float B) ;;
  average_score <-
    match average_score_text card with
    | Some s => to_float B s
    | None => Ok 0%float
    end ;;
  ovp_text <- text_of (ovp_text card) ;;
  vpp_text <- text_of (vpp_text card) ;;
  consent_text <- text_of (consent_text card) ;;
  Ok {| position := position; application_id := application_id;
        exam_type := exam_type; exam_id := exam_id;
        exam_score := exam_score; total_score := total_score;
        average_score := average_score; priority := priority;
        ovp := is_yes B ovp_text; vpp := is_yes B vpp_text;
        consent := is_yes B consent_text |}.

(** [[parse_applicant_card(card) for card in cards]]: the first card
    that raises ends the comprehension. *)
Fixpoint parse_all (cards : list Card) : result (list Applicant) :=
  match cards with
  | [] => Ok []
  | card :: rest =>
      a <- parse_applicant_card card ;;
      l <- parse_all rest ;;
      Ok (a :: l)
  end.

Definition parse_itmo_rating (net : network) (url : str)
    (ovp_filter vpp_filter consent_filter : option bool)
  : result (list Applicant) :=
  reraise (
    match net url with
    | None => Err ConnectionError
    | Some response =>
        if negb (status_ok response) then Err HTTPError
        else
          match cards response with
          | [] => Err ValueError
          | _ :: _ =>
              applicants <- parse_all (cards response) ;;
              if is_Some_b ovp_filter || is_Some_b vpp_filter
                 || is_Some_b consent_filter
              then Ok (filter_applicants applicants ovp_filter vpp_filter
                                         consent_filter)
              else Ok applicants
          end
    end).

End Extractor.

End Main.

(** ** Vocabulary of the statements *)

Section Vocabulary.
Import App.
Context (B : PyBuiltins).

(** What each stage of [filter_applicants] asks of a record. *)
Definition flag_ok (o : option bool) (v : bool) : Prop :=
  match o with Some b => v = b | None => True end.

Definition search_ok (o : option str) (id : str) : Prop :=
  if truthy o && nonempty (strip (default [] o))
  then contains (lower B id) (lower B (strip (default [] o))) = true
  else True.

Definition exam_ok (o : option str) (t : str) : Prop :=
  if truthy o && bool_decide (o <> Some s_All) && nonempty (strip (default [] o))
  then if decide (default [] o = s_BVI) then t <> s_VE else t = default [] o
  else True.

Definition score_ok (op val : option str) (x : float) : Prop :=
  if truthy op && truthy val then
    match py_float B (default [] val) with
    | Some v => cmp x (default [] op) v = true
    | None => True
    end
  else True.

(** The conjunction of all stages, for priority bounds [lo] and [hi] as given. *)
Definition keeps (h : heap) (args : filter_args) (lo hi : Z) (a : ref) : Prop :=
  flag_ok (arg_ovp args) (ovp (h a)) /\
  flag_ok (arg_vpp args) (vpp (h a)) /\
  flag_ok (arg_consent args) (consent (h a)) /\
  search_ok (arg_search_id args) (application_id (h a)) /\
  exam_ok (arg_exam_type args) (exam_type (h a)) /\
  (priority (h a) >= (if hi <? lo then hi else lo)) /\
  (priority (h a) <= (if hi >? lo then hi else lo)) /\
  score_ok (arg_average_score_op args) (arg_average_score_val args)
           (average_score (h a)) /\
  score_ok (arg_exam_score_op args) (arg_exam_score_val args)
           (exam_score (h a)) /\
  score_ok (arg_total_score_op args) (arg_total_score_val args)
           (total_score (h a)).

(** What each operator asks of a value [x] against the threshold [r], in
    the order of binary64 floats: [ge] is [x >= r], [g] is [x > r], [le]
    is [x <= r], [l] is [x < r], [eq] is [x = r]. *)
Definition operator_holds (op : str) (x r : float) : Prop :=
  (op = lit "ge" -> PrimFloat.leb r x = true) /\
  (op = lit "g" -> PrimFloat.ltb r x = true) /\
  (op = lit "le" -> PrimFloat.leb x r = true) /\
  (op = lit "l" -> PrimFloat.ltb x r = true) /\
  (op = lit "eq" -> PrimFloat.eqb x r = true).

(** A numeric comparison that is set and whose value parses holds of [x]. *)
Definition comparison_holds (op val : option str) (x : float) : Prop :=
  forall o v r, op = Some o -> o <> [] -> val = Some v -> v <> [] ->
    py_float B v = Some r -> operator_holds o x r.

(** A record satisfies every predicate that is set in [args]. *)
Definition satisfies_active (args : filter_args) (a : Applicant) : Prop :=
  (forall b, arg_ovp args = Some b -> ovp a = b) /\
  (forall b, arg_vpp args = Some b -> vpp a = b) /\
  (forall b, arg_consent args = Some b -> consent a = b) /\
  (forall s, arg_search_id args = Some s -> strip s <> [] ->
     exists pre post,
       lower B (application_id a) = pre ++ lower B (strip s) ++ post) /\
  (forall t, arg_exam_type args = Some t -> strip t <> [] -> t <> s_All ->
     if decide (t = s_BVI) then exam_type a <> s_VE else exam_type a = t) /\
  (forall lo hi, arg_priority_min args = Some lo ->
     arg_priority_max args = Some hi ->
     Z.min lo hi <= priority a <= Z.max lo hi) /\
  comparison_holds (arg_average_score_op args) (arg_average_score_val args)
                   (average_score a) /\
  comparison_holds (arg_exam_score_op args) (arg_exam_score_val args)
                   (exam_score a) /\
  comparison_holds (arg_total_score_op args) (arg_total_score_val args)
                   (total_score a).

(** The stage predicates are decidable. *)
#[global] Instance flag_ok_dec (o : option bool) (v : bool) : Decision (flag_ok o v).
Proof. destruct o; simpl; apply _. Defined.

#[global] Instance search_ok_dec (o : option str) (id : str) : Decision (search_ok o id).
Proof. unfold search_ok. destruct (_ && _); apply _. Defined.

#[global] Instance exam_ok_dec (o : option str) (t : str) : Decision (exam_ok o t).
Proof. unfold exam_ok. destruct (_ && _); [destruct (decide _) |]; apply _. Defined.

#[global] Instance score_ok_dec (op val : option str) (x : float) :
  Decision (score_ok op val x).
Proof.
  unfold score_ok. destruct (_ && _); [destruct (py_float _ _) |]; apply _.
Defined.

#[global] Instance keeps_dec (h : heap) (args : filter_args) (lo hi : Z) (a : ref) :
  Decision (keeps h args lo hi a).
Proof. unfold keeps. apply _. Defined.

End Vocabulary.

(** The arguments with one keyword replaced. *)
Definition set_exam_type (args : App.filter_args) (o : option str) : App.filter_args :=
  let 'App.mkArgs a b c d _ f g h i j k l m n := args in
  App.mkArgs a b c d o f g h i j k l m n.

Definition set_average_score (args : App.filter_args) (op val : option str)
  : App.filter_args :=
  let 'App.mkArgs a b c d e f _ _ i j k l m n := args in
  App.mkArgs a b c d e f op val i j k l m n.

Definition set_exam_score (args : App.filter_args) (op val : option str)
  : App.filter_args :=
  let 'App.mkArgs a b c d e f g h _ _ k l m n := args in
  App.mkArgs a b c d e f g h op val k l m n.

Definition set_total_score (args : App.filter_args) (op val : option str)
  : App.filter_args :=
  let 'App.mkArgs a b c d e f g h i j _ _ m n := args in
  App.mkArgs a b c d e f g h i j op val m n.

(** The list of records a call returns, when it returns. *)
Definition kept (r : result (App.heap * App.FilterResult)) : result (list App.ref) :=
  rmap (fun p => App.applicants (snd p)) r.

(** The ranks [1 .. n]. *)
Definition ranks (n : nat) : list Z := List.map Z.of_nat (seq 1 n).

(** The arguments with the two priority bounds replaced. *)
Definition set_priority (args : App.filter_args) (lo hi : option Z)
  : App.filter_args :=
  let 'App.mkArgs a b c d e f g h i j k l _ _ := args in
  App.mkArgs a b c d e f g h i j k l lo hi.

(** The operators [cmp] knows. *)
Definition known_operator (op : str) : Prop :=
  op = lit "ge" \/ op = lit "g" \/ op = lit "le" \/ op = lit "l" \/ op = lit "eq".

(** A record of [app.py] read as a record of [main.py]. *)
Definition to_main (a : App.Applicant) : Main.Applicant :=
  {| Main.position := App.position a;
     Main.application_id := App.application_id a;
     Main.exam_type := App.exam_type a; Main.exam_id := App.exam_id a;
     Main.exam_score := App.exam_score a; Main.total_score := App.total_score a;
     Main.average_score := App.average_score a; Main.priority := App.priority a;
     Main.ovp := App.ovp a; Main.vpp := App.vpp a; Main.consent := App.consent a |}.

(** Two stores that differ at most in [filtered_position]. *)
Definition same_records (h1 h2 : App.heap) : Prop :=
  forall r, App.with_filtered_position (h1 r) 0 = App.with_filtered_position (h2 r) 0.

(** Every cached list names pairwise distinct objects that exist. *)
Definition cache_wf (st : App.AppState) : Prop :=
  forall url e, App.cached_applicants st !! url = Some e ->
    NoDup (App.data e) /\ Forall (fun r => (r < App.next_ref st)%nat) (App.data e).

Definition state_of (ad : App.AppData) : App.AppState := App.app_state ad.

(** ** Sample data

    A fragment of the built-ins, enough for the sample page: lower-casing
    of ASCII and of the basic Cyrillic capitals, [int] on plain decimal
    digits, and [float] on the literals listed. *)

Definition sample_lower (s : str) : str :=
  List.map (fun c => if ((65 <=? c) && (c <=? 90) || (1040 <=? c) && (c <=? 1071))%N
                     then (c + 32)%N else c) s.

Fixpoint digits_value (s : str) (acc : Z) : option Z :=
  match s with
  | [] => Some acc
  | c :: s' =>
      if ((48 <=? c) && (c <=? 57))%N
      then digits_value s' (10 * acc + Z.of_N (c - 48))
      else None
  end.

Definition sample_int (s : str) : option Z :=
  match strip s with
  | [] => None
  | d => digits_value d 0
  end.

Definition sample_float (s : str) : option float :=
  if decide (s = lit "4.0") then Some 4%float
  else if decide (s = lit "4.5") then Some 4.5%float
  else if decide (s = lit "7.5") then Some 7.5%float
  else if decide (s = lit "70") then Some 70%float
  else if decide (s = lit "75") then Some 75%float
  else if decide (s = lit "80") then Some 80%float
  else if decide (s = lit "90") then Some 90%float
  else None.

Definition sample_builtins : PyBuiltins :=
  {| lower := sample_lower; py_int := sample_int; py_float := sample_float |}.

(** Two records in a store: reference 0 holds [rec0], every other one [rec1]. *)
Definition rec0 : App.Applicant :=
  App.mkApplicant 2 (lit "100") s_VE 1 80 90 4.5 1 true false true 0.
Definition rec1 : App.Applicant :=
  App.mkApplicant 1 (lit "200") s_BVI 2 70 75 4 3 false true true 7.
Definition rec2 : App.Applicant :=
  App.mkApplicant 3 (lit "300") s_VE 0 90 90 4.5 2 true true false 0.
Definition sample_heap : App.heap :=
  fun r => match r with O => rec0 | S O => rec1 | _ => rec2 end.

(** Arguments that set only the priority range, as [min = 10], [max = 1]. *)
Definition range_only : App.filter_args :=
  App.mkArgs None None None None None None None None None None None None
             (Some 10) (Some 1).

(** All filters set; the score threshold of the average is not a number. *)
Definition all_set : App.filter_args :=
  App.mkArgs (Some true) (Some false) (Some true) (Some (lit " 10 "))
             (Some s_VE) (Some (lit "100"))
             (Some (lit "ge")) (Some (lit "abc"))
             (Some (lit "le")) (Some (lit "80"))
             (Some (lit "g")) (Some (lit "75"))
             (Some 10) (Some 1).

(** Only the lower priority bound set. *)
Definition min_only : App.filter_args :=
  App.mkArgs None None None None None None None None None None None None
             (Some 3) None.

(** The priority range and a target, given with blanks around it. *)
Definition range_and_target : App.filter_args :=
  App.mkArgs None None None None None (Some (lit " 300 ")) None None None None
             None None (Some 10) (Some 1).

(** Nothing set: the defaults of the keyword arguments. *)
Definition defaults : App.filter_args :=
  App.mkArgs None None None None None None None None None None None None
             None None.

(** A page of five well-formed cards and one without its priority node. *)
Definition card (pos id : string) (prio : option str) : Card :=
  {| position_text := Some (lit pos);
     application_id_text := Some (lit id);
     exam_type_text := Some s_VE;
     exam_id_text := Some (lit "3");
     exam_score_text := Some (lit "80");
     total_score_text := Some (lit "90");
     average_score_text := Some (lit "4.5");
     priority_text := prio;
     ovp_text := Some [1044; 1072]%N;
     vpp_text := Some (lit "no");
     consent_text := Some s_da |}.

Definition sample_page : Response :=
  {| status_ok := true;
     cards := [card " 1 " "101" (Some (lit "1")); card "2" "102" (Some (lit "2"));
               card "3" "103" None; card "4" "104" (Some (lit "1"));
               card "5" "105" (Some (lit "3")); card "6" "106" (Some (lit "1"))] |}.

Definition empty_page : Response := {| status_ok := true; cards := [] |}.

(** A cache holding one entry for the sample address, written at time 1000. *)
Definition sample_url : str := lit "https://abit.itmo.ru/rating/master/budget/2225".
Definition sample_state : App.AppState :=
  {| App.objects := sample_heap; App.next_ref := 3%nat;
     App.cached_applicants := {[ sample_url := App.mkEntry 1000 [0%nat; 1%nat; 2%nat] ]};
     App.submitted := [] |}.
Definition offline : network := fun _ => None.

(** A page whose two cards are well formed, and a card without its
    average-score node. *)
Definition good_page : Response :=
  {| status_ok := true;
     cards := [card "2" "102" (Some (lit "2")); card " 1 " "101" (Some (lit "1"))] |}.

Definition card_without_average : Card :=
  {| position_text := Some (lit "7");
     application_id_text := Some (lit "107");
     exam_type_text := Some s_VE;
     exam_id_text := Some (lit "3");
     exam_score_text := Some (lit "80");
     total_score_text := Some (lit "90");
     average_score_text := None;
     priority_text := Some (lit "1");
     ovp_text := Some s_da;
     vpp_text := Some s_da;
     consent_text := Some (lit "no") |}.

(** A state with nothing cached, and the data of the application around
    the sample state. *)
Definition empty_state : App.AppState :=
  {| App.objects := sample_heap; App.next_ref := 3%nat;
     App.cached_applicants := ∅; App.submitted := [] |}.

Definition sample_data : App.AppData :=
  {| App.app_state := sample_state; App.exam_types := ∅; App.last_url := None |}.

(** A form that gives both priority bounds and a target, and an empty form. *)
Definition sample_form : App.form :=
  <["priority_min" := lit "1"]> (<["priority_max" := lit "10"]>
  (<["stats_id" := lit " 300 "]> ∅)).

Definition blank_form : App.form := ∅.

(** The range with a comparison whose operator is not one of the five. *)
Definition odd_operator : App.filter_args :=
  App.mkArgs None None None None None None (Some (lit "ne")) (Some (lit "7.5"))
             None None None None (Some 1) (Some 10).

(** * Properties *)

(** ** Strings *)

Lemma strip_nil : strip [] = [].
Proof. reflexivity. Qed.

Lemma nonempty_true (s : str) : nonempty s = true <-> s <> [].
Proof. destruct s; simpl; split; congruence. Qed.

Lemma truthy_Some (s : str) : truthy (Some s) = nonempty s.
Proof. reflexivity. Qed.

Lemma startswith_spec (s prefix : str) :
  startswith s prefix = true <-> exists rest, s = prefix ++ rest.
Proof.
  revert s. induction prefix as [|p prefix IH]; intros s; simpl.
  - split; [intros _; by exists s | by destruct s].
  - destruct s as [|c s].
    + split; [done | intros [rest Hrest]; discriminate].
    + simpl. rewrite andb_true_iff, N.eqb_eq, IH. split.
      * intros [-> [rest ->]]. by exists rest.
      * intros [rest Hrest]. injection Hrest as -> ->. eauto.
Qed.

(** [contains hay needle] is the substring test. *)
Lemma contains_spec (hay needle : str) :
  contains hay needle = true <-> exists pre post, hay = pre ++ needle ++ post.
Proof.
  induction hay as [|c hay IH].
  - cbn [contains]. rewrite orb_false_r, startswith_spec. split.
    + intros [rest ->]. by exists [], rest.
    + intros [pre [post H]]. symmetry in H.
      apply app_eq_nil in H as [-> H]. by exists post.
  - cbn [contains]. rewrite orb_true_iff, startswith_spec, IH. split.
    + intros [[rest ->] | [pre [post ->]]].
      * by exists [], rest.
      * by exists (c :: pre), post.
    + intros [[|c' pre] [post H]].
      * left. by exists post.
      * right. injection H as -> ->. by exists pre, post.
Qed.

(** ** [sorted] *)

Section SortedFacts.
Context {A : Type} (key : A -> Z).

Lemma insert_by_perm (x : A) (l : list A) : insert_by key x l ≡ₚ x :: l.
Proof.
  induction l as [|y l IH]; simpl; [done |].
  destruct (key y <? key x); [| done].
  rewrite IH. apply Permutation_swap.
Qed.

Lemma sorted_perm (l : list A) : sorted key l ≡ₚ l.
Proof.
  induction l as [|x l IH]; simpl; [done |].
  by rewrite insert_by_perm, IH.
Qed.

Lemma sorted_length (l : list A) : length (sorted key l) = length l.
Proof. by rewrite sorted_perm. Qed.

Lemma elem_of_sorted (l : list A) (x : A) : x ∈ sorted key l <-> x ∈ l.
Proof. by rewrite sorted_perm. Qed.

Lemma insert_by_sorted (x : A) (l : list A) :
  StronglySorted (key_le key) l -> StronglySorted (key_le key) (insert_by key x l).
Proof.
  induction l as [|y l IH]; intros Hs; simpl.
  - repeat constructor.
  - apply StronglySorted_inv in Hs as [Hl Hy].
    destruct (Z.ltb_spec (key y) (key x)) as [Hlt | Hge].
    + constructor; [by apply IH |].
      rewrite insert_by_perm. constructor; [unfold key_le; lia | done].
    + constructor; [by constructor |].
      constructor; [done |].
      eapply Forall_impl; [exact Hy |]. unfold key_le. intros; lia.
Qed.

(** The result is ascending by key. *)
Lemma sorted_StronglySorted (l : list A) : StronglySorted (key_le key) (sorted key l).
Proof.
  induction l as [|x l IH]; simpl; [constructor | by apply insert_by_sorted].
Qed.

Lemma filter_key_insert_by (k : Z) (x : A) (l : list A) :
  filter (fun a => key a = k) (insert_by key x l)
  = filter (fun a => key a = k) (x :: l).
Proof.
  induction l as [|y l IH]; simpl; [done |].
  destruct (Z.ltb_spec (key y) (key x)) as [Hlt | Hge]; [| done].
  rewrite (filter_cons _ y), IH, !filter_cons.
  destruct (decide (key y = k)), (decide (key x = k)); try done. lia.
Qed.

(** The sort is stable: elements of equal key keep their order. *)
Lemma sorted_stable (k : Z) (l : list A) :
  filter (fun a => key a = k) (sorted key l) = filter (fun a => key a = k) l.
Proof.
  induction l as [|x l IH]; simpl; [done |].
  by rewrite filter_key_insert_by, !filter_cons, IH.
Qed.

Lemma filter_insert_by (P : A -> Prop) `{!forall a, Decision (P a)} (x : A) (l : list A) :
  StronglySorted (key_le key) l ->
  filter P (insert_by key x l)
  = if decide (P x) then insert_by key x (filter P l) else filter P l.
Proof.
  induction l as [|y l IH]; intros Hs; simpl.
  - rewrite filter_cons, filter_nil. by destruct (decide (P x)).
  - apply StronglySorted_inv in Hs as [Hl Hy].
    destruct (Z.ltb_spec (key y) (key x)) as [Hlt | Hge].
    + rewrite !(filter_cons _ y), IH by done.
      destruct (decide (P y)), (decide (P x)); simpl; try done.
      destruct (Z.ltb_spec (key y) (key x)); [done | lia].
    + rewrite (filter_cons _ x), !(filter_cons _ y).
      destruct (decide (P x)); [| done].
      destruct (decide (P y)); simpl.
      * destruct (Z.ltb_spec (key y) (key x)); [lia | done].
      * assert (Hall : Forall (fun a => key x <= key a) (filter P l)).
        { apply Forall_forall. intros a Ha.
          apply list_elem_of_filter in Ha as [_ Ha].
          rewrite Forall_forall in Hy. specialize (Hy a Ha).
          unfold key_le in Hy. lia. }
        destruct (filter P l) as [|z l'] eqn:E; simpl; [done |].
        apply Forall_cons in Hall as [Hz _].
        destruct (Z.ltb_spec (key z) (key x)); [lia | done].
Qed.

(** Filtering commutes with sorting. *)
Lemma filter_sorted (P : A -> Prop) `{!forall a, Decision (P a)} (l : list A) :
  filter P (sorted key l) = sorted key (filter P l).
Proof.
  induction l as [|x l IH]; simpl; [done |].
  rewrite filter_insert_by by apply sorted_StronglySorted.
  rewrite filter_cons, IH. by destruct (decide (P x)).
Qed.

End SortedFacts.

Lemma sorted_ext {A} (key1 key2 : A -> Z) (l : list A) :
  (forall a, key1 a = key2 a) -> sorted key1 l = sorted key2 l.
Proof.
  intros Hk. induction l as [|x l IH]; simpl; [done |]. rewrite IH.
  generalize (sorted key2 l). intros s.
  induction s as [|y s IHs]; simpl; [done |]. by rewrite !Hk, IHs.
Qed.

(** ** The store *)

Section Store.
Import App.

Lemma set_filtered_position_same (h : heap) (app : ref) (idx : Z) :
  set_filtered_position h app idx app = with_filtered_position (h app) idx.
Proof. unfold set_filtered_position. by rewrite Nat.eqb_refl. Qed.

Lemma set_filtered_position_other (h : heap) (app r : ref) (idx : Z) :
  r <> app -> set_filtered_position h app idx r = h r.
Proof.
  intros Hne. unfold set_filtered_position.
  by destruct (Nat.eqb_spec r app).
Qed.

Lemma with_filtered_position_twice (a : Applicant) (i j : Z) :
  with_filtered_position (with_filtered_position a i) j = with_filtered_position a j.
Proof. reflexivity. Qed.

Lemma with_filtered_position_id (a : Applicant) :
  with_filtered_position a (filtered_position a) = a.
Proof. by destruct a. Qed.

(** An object outside the list is left alone. *)
Lemma assign_positions_other (l : list ref) (h : heap) (idx : Z) (r : ref) :
  r ∉ l -> assign_positions h l idx r = h r.
Proof.
  revert h idx. induction l as [|app l IH]; intros h idx Hr; simpl; [done |].
  apply not_elem_of_cons in Hr as [Hne Hr].
  rewrite IH by done. by apply set_filtered_position_other.
Qed.

(** Only [filtered_position] is written. *)
Lemma assign_positions_frame (l : list ref) (h : heap) (idx : Z) (r : ref) :
  assign_positions h l idx r
  = with_filtered_position (h r) (filtered_position (assign_positions h l idx r)).
Proof.
  revert h idx. induction l as [|app l IH]; intros h idx; simpl.
  - by rewrite with_filtered_position_id.
  - rewrite IH at 1. unfold set_filtered_position.
    destruct (Nat.eqb_spec r app) as [-> | Hne]; [| done].
    by rewrite with_filtered_position_twice.
Qed.

(** On a list without repeats the objects get consecutive ranks. *)
Lemma assign_positions_NoDup (l : list ref) (h : heap) (idx : Z) :
  NoDup l ->
  List.map (fun a => filtered_position (assign_positions h l idx a)) l
  = List.map (fun k => idx + Z.of_nat k) (seq 0 (length l)).
Proof.
  revert h idx. induction l as [|app l IH]; intros h idx Hnd; simpl; [done |].
  apply NoDup_cons in Hnd as [Happ Hnd]. f_equal.
  - rewrite assign_positions_other by done.
    rewrite set_filtered_position_same. simpl. lia.
  - rewrite IH by done. rewrite <- seq_shift, List.map_map.
    apply List.map_ext. intros k. lia.
Qed.

(** An object carries the rank of the last slot it occupies. *)
Lemma assign_positions_last (l : list ref) (h : heap) (idx : Z) (i : nat) (a : ref) :
  l !! i = Some a -> a ∉ drop (S i) l ->
  filtered_position (assign_positions h l idx a) = idx + Z.of_nat i.
Proof.
  revert h idx i. induction l as [|x l IH]; intros h idx i Hi Hlast; [done |].
  destruct i as [|i]; simpl in *.
  - injection Hi as ->. rewrite drop_0 in Hlast.
    rewrite assign_positions_other by done.
    rewrite set_filtered_position_same. simpl. lia.
  - rewrite (IH _ _ i Hi Hlast). lia.
Qed.

End Store.

(** ** The stages of [filter_applicants] *)

Section FilterFacts.
Import App.
Context (B : PyBuiltins).

Lemma filter_all {A} (P : A -> Prop) `{!forall a, Decision (P a)} (l : list A) :
  (forall a, P a) -> filter P l = l.
Proof.
  intros HP. induction l as [|x l IH]; [done |].
  by rewrite filter_cons_True, IH.
Qed.

Lemma stage_flag (h : heap) (f : Applicant -> bool) (o : option bool) (l : list ref) :
  match o with
  | Some b => filter (fun a => f (h a) = b) l
  | None => l
  end = filter (fun a => flag_ok o (f (h a))) l.
Proof.
  destruct o as [b|]; simpl.
  - by apply list_filter_iff.
  - by rewrite filter_all.
Qed.

Lemma stage_search (h : heap) (o : option str) (l : list ref) :
  (if truthy o && nonempty (strip (default [] o))
   then filter (fun a => contains (lower B (application_id (h a)))
                                  (lower B (strip (default [] o))) = true) l
   else l) = filter (fun a => search_ok B o (application_id (h a))) l.
Proof.
  destruct (truthy o && nonempty (strip (default [] o))) eqn:E.
  - apply list_filter_iff. intros a. unfold search_ok. by rewrite E.
  - rewrite filter_all; [done |]. intros a. unfold search_ok. by rewrite E.
Qed.

Lemma stage_exam (h : heap) (o : option str) (l : list ref) :
  (if truthy o && bool_decide (o <> Some s_All) && nonempty (strip (default [] o))
   then if decide (default [] o = s_BVI)
        then filter (fun a => exam_type (h a) <> s_VE) l
        else filter (fun a => exam_type (h a) = default [] o) l
   else l) = filter (fun a => exam_ok o (exam_type (h a))) l.
Proof.
  destruct (truthy o && bool_decide (o <> Some s_All)
            && nonempty (strip (default [] o))) eqn:E.
  - destruct (decide (default [] o = s_BVI)) as [Hb | Hb];
      apply list_filter_iff; intros a; unfold exam_ok; rewrite E;
      by destruct (decide (default [] o = s_BVI)).
  - rewrite filter_all; [done |]. intros a. unfold exam_ok. by rewrite E.
Qed.

Lemma score_filter_eq (h : heap) (field : Applicant -> float)
    (op val : option str) (l : list ref) :
  score_filter B h field op val l
  = filter (fun a => score_ok B op val (field (h a))) l.
Proof.
  unfold score_filter. destruct (truthy op && truthy val) eqn:E.
  - destruct (py_float B (default [] val)) as [v|] eqn:Ev.
    + apply list_filter_iff. intros a. unfold score_ok. by rewrite E, Ev.
    + rewrite filter_all; [done |]. intros a. unfold score_ok. by rewrite E, Ev.
  - rewrite filter_all; [done |]. intros a. unfold score_ok. by rewrite E.
Qed.

(** What a call returns when both priority bounds are given. *)
Lemma filter_applicants_Ok (h : heap) (apps : list ref) (args : filter_args) (lo hi : Z) :
  arg_priority_min args = Some lo ->
  arg_priority_max args = Some hi ->
  filter_applicants B h apps args
  = Ok (assign_positions h
          (sorted (fun x => position (h x)) (filter (keeps B h args lo hi) apps)) 1,
        {| applicants :=
             sorted (fun x => position (h x)) (filter (keeps B h args lo hi) apps);
           total_count := length apps;
           filtered_count := length (filter (keeps B h args lo hi) apps);
           stats :=
             fst (cohort
                    (assign_positions h
                       (sorted (fun x => position (h x))
                               (filter (keeps B h args lo hi) apps)) 1)
                    (sorted (fun x => position (h x))
                            (filter (keeps B h args lo hi) apps))
                    (arg_stats_id args));
           stats_list :=
             snd (cohort
                    (assign_positions h
                       (sorted (fun x => position (h x))
                               (filter (keeps B h args lo hi) apps)) 1)
                    (sorted (fun x => position (h x))
                            (filter (keeps B h args lo hi) apps))
                    (arg_stats_id args)) |}).
Proof.
  intros Hlo Hhi. unfold filter_applicants. rewrite Hlo, Hhi.
  cbn [py_min py_max bind].
  rewrite !stage_flag, stage_search, stage_exam, !score_filter_eq.
  rewrite !list_filter_filter.
  match goal with
  | |- context [filter ?P apps] =>
      rewrite (list_filter_iff P (keeps B h args lo hi) apps)
        by (intros a; unfold keeps; tauto)
  end.
  cbv zeta. by destruct (cohort _ _ _).
Qed.

(** A call with a priority bound left at [None] raises. *)
Lemma filter_applicants_Err (h : heap) (apps : list ref) (args : filter_args) :
  arg_priority_min args = None \/ arg_priority_max args = None ->
  filter_applicants B h apps args = Err TypeError.
Proof.
  intros Hnone. unfold filter_applicants.
  destruct (arg_priority_min args), (arg_priority_max args);
    try reflexivity; destruct Hnone; discriminate.
Qed.

End FilterFacts.

(** ** [filter_applicants] *)

Section FilterTheorems.
Import App.
Context (B : PyBuiltins).

(** Every returning call had both bounds, and its result is the sorted
    list of the records all stages keep. *)
Lemma filter_applicants_inv (h : heap) (apps : list ref) (args : filter_args)
    (h' : heap) (res : FilterResult) :
  filter_applicants B h apps args = Ok (h', res) ->
  exists lo hi,
    arg_priority_min args = Some lo /\ arg_priority_max args = Some hi /\
    h' = assign_positions h (applicants res) 1 /\
    applicants res
    = sorted (fun x => position (h x)) (filter (keeps B h args lo hi) apps) /\
    total_count res = length apps /\
    filtered_count res = length (filter (keeps B h args lo hi) apps) /\
    (stats res, stats_list res) = cohort h' (applicants res) (arg_stats_id args).
Proof.
  intros Hret.
  destruct (arg_priority_min args) as [lo|] eqn:Hlo;
    [| rewrite filter_applicants_Err in Hret by auto; discriminate].
  destruct (arg_priority_max args) as [hi|] eqn:Hhi;
    [| rewrite filter_applicants_Err in Hret by auto; discriminate].
  rewrite (filter_applicants_Ok B h apps args lo hi Hlo Hhi) in Hret.
  injection Hret as <- <-. exists lo, hi. simpl.
  repeat split; try done. by destruct (cohort _ _ _).
Qed.

(** From a returning call [H], the facts of [filter_applicants_inv]. *)
Ltac returned H :=
  destruct (filter_applicants_inv _ _ _ _ _ H)
    as (lo & hi & Hlo & Hhi & Hh & Happs & Htot & Hcnt & Hst).

Lemma returned_fields (h : heap) (l : list ref) (idx : Z) (r : ref) :
  let a := assign_positions h l idx r in
  position a = position (h r) /\ application_id a = application_id (h r) /\
  exam_type a = exam_type (h r) /\ exam_id a = exam_id (h r) /\
  exam_score a = exam_score (h r) /\ total_score a = total_score (h r) /\
  average_score a = average_score (h r) /\ priority a = priority (h r) /\
  ovp a = ovp (h r) /\ vpp a = vpp (h r) /\ consent a = consent (h r).
Proof. simpl. rewrite assign_positions_frame. by repeat split. Qed.

(** [cmp] answers true only when the operator's relation holds. *)
Lemma cmp_holds (x : float) (op : str) (r : float) :
  cmp x op r = true -> operator_holds op x r.
Proof.
  unfold cmp, operator_holds. intros Hcmp.
  repeat case_decide; subst; split_and!; intros Heq;
    first [exact Hcmp | congruence | (vm_compute in Heq; discriminate Heq)].
Qed.

Lemma keeps_satisfies (h : heap) (args : filter_args) (lo hi : Z) (a : ref) :
  arg_priority_min args = Some lo -> arg_priority_max args = Some hi ->
  keeps B h args lo hi a -> satisfies_active B args (h a).
Proof.
  intros Hlo Hhi (Ho & Hv & Hc & Hs & He & Hge & Hle & H1 & H2 & H3).
  assert (Hcmp : forall op val x, score_ok B op val x -> comparison_holds B op val x).
  { intros op val x Hok o v r -> Ho' -> Hv' Hr. unfold score_ok in Hok.
    apply nonempty_true in Ho', Hv'. simpl in Hok.
    rewrite Ho', Hv', Hr in Hok. by apply cmp_holds. }
  unfold satisfies_active. split_and!; auto.
  - intros b Hb. by rewrite Hb in Ho.
  - intros b Hb. by rewrite Hb in Hv.
  - intros b Hb. by rewrite Hb in Hc.
  - intros s Hsid Hne. unfold search_ok in Hs. rewrite Hsid in Hs. simpl in Hs.
    assert (Hs' : s <> []) by (intros ->; by apply Hne).
    apply nonempty_true in Hs', Hne. rewrite Hs', Hne in Hs.
    by apply contains_spec.
  - intros t Ht Hne Hall. unfold exam_ok in He. rewrite Ht in He. simpl in He.
    assert (Ht' : t <> []) by (intros ->; by apply Hne).
    apply nonempty_true in Ht', Hne. rewrite Ht', Hne in He.
    rewrite bool_decide_true in He by congruence. exact He.
  - intros lo' hi' Hlo' Hhi'.
    assert (lo' = lo) as -> by congruence.
    assert (hi' = hi) as -> by congruence.
    destruct (Z.ltb_spec hi lo), (Z.gtb_spec hi lo); lia.
Qed.

(** C2: a returning call reports [total_count] as the size of the input,
    [filtered_count] as the size of the returned list, never more than
    [total_count], and every returned record satisfies every predicate
    that is set in the arguments: the flags, the substring search, the
    exam-type selector, the priority range, and each numeric comparison
    in the order of the floats. *)
Theorem filter_applicants_counts_and_predicates
    (h : heap) (apps : list ref) (args : filter_args)
    (h' : heap) (res : FilterResult) :
  filter_applicants B h apps args = Ok (h', res) ->
  (filtered_count res <= total_count res)%nat /\
  total_count res = length apps /\
  filtered_count res = length (applicants res) /\
  Forall (fun a => satisfies_active B args (h' a)) (applicants res).
Proof.
  intros Hret. returned Hret.
  rewrite Htot, Hcnt, Happs, sorted_length. repeat split; try done.
  - apply length_filter.
  - apply Forall_forall. intros a Ha.
    apply elem_of_sorted, list_elem_of_filter in Ha as [Hk _].
    rewrite Hh, assign_positions_frame.
    exact (keeps_satisfies h args lo hi a Hlo Hhi Hk).
Qed.

(** C3: the returned list is ascending by [position], records of equal
    [position] keep the order they had in the input, and every returned
    object that does not occur again further down the list carries its
    1-based index as [filtered_position], whatever it carried before the
    call. On an input that holds each object once, as every list the
    extractor builds does, the [filtered_position] values read along the
    returned list are therefore exactly [1 .. filtered_count]. *)
Theorem filter_applicants_sorted_and_ranked
    (h : heap) (apps : list ref) (args : filter_args)
    (h' : heap) (res : FilterResult) :
  filter_applicants B h apps args = Ok (h', res) ->
  StronglySorted (key_le (fun a => position (h' a))) (applicants res) /\
  (forall p, filter (fun a => position (h' a) = p) (applicants res)
             `sublist_of` apps) /\
  (forall i a, applicants res !! i = Some a ->
     a ∉ drop (S i) (applicants res) ->
     filtered_position (h' a) = Z.of_nat i + 1) /\
  (NoDup apps ->
     List.map (fun a => filtered_position (h' a)) (applicants res)
     = ranks (filtered_count res)).
Proof.
  intros Hret. returned Hret.
  assert (Hpos : forall a, position (h' a) = position (h a)).
  { intros a. rewrite Hh. apply returned_fields. }
  split_and!.
  - rewrite Happs, (sorted_ext _ (fun a => position (h' a))) by done.
    apply sorted_StronglySorted.
  - intros p. rewrite Happs.
    rewrite (list_filter_iff _ (fun a => position (h a) = p))
      by (intros a; by rewrite Hpos).
    rewrite (sorted_stable (fun x => position (h x))).
    etrans; apply sublist_filter.
  - intros i a Hi Hlast. rewrite Hh.
    rewrite (assign_positions_last _ h 1 i a Hi Hlast). lia.
  - intros Hnd. rewrite Hh, assign_positions_NoDup.
    + rewrite Hcnt, Happs, sorted_length. unfold ranks.
      rewrite <- seq_shift, List.map_map. apply List.map_ext. intros k. lia.
    + rewrite Happs, sorted_perm. by apply NoDup_filter.
Qed.

(** C10: a returning call changes no field of any object other than
    [filtered_position], changes nothing at all on an object that is not
    returned, and returns records drawn from the input list, none more
    often than the input holds it (so without repeats when the input has
    none). *)
Theorem filter_applicants_frame
    (h : heap) (apps : list ref) (args : filter_args)
    (h' : heap) (res : FilterResult) :
  filter_applicants B h apps args = Ok (h', res) ->
  (forall r, h' r = with_filtered_position (h r) (filtered_position (h' r))) /\
  (forall r, r ∉ applicants res -> h' r = h r) /\
  applicants res ⊆+ apps /\
  (NoDup apps -> NoDup (applicants res)).
Proof.
  intros Hret. returned Hret.
  repeat split.
  - intros r. rewrite Hh. apply assign_positions_frame.
  - intros r Hr. rewrite Hh. by apply assign_positions_other.
  - rewrite Happs, sorted_perm. apply sublist_submseteq, sublist_filter.
  - intros Hnd. rewrite Happs, sorted_perm. by apply NoDup_filter.
Qed.

End FilterTheorems.

(** ** The exam-type selector *)

Section ExamType.
Import App.
Context (B : PyBuiltins).

Lemma exam_ok_None (t : str) : exam_ok None t <-> True.
Proof. done. Qed.

Lemma exam_ok_All (t : str) : exam_ok (Some s_All) t <-> True.
Proof. done. Qed.

Lemma exam_ok_BVI (t : str) : exam_ok (Some s_BVI) t <-> t <> s_VE.
Proof. done. Qed.

Lemma exam_ok_other (v t : str) :
  strip v <> [] -> v <> s_All -> v <> s_BVI -> exam_ok (Some v) t <-> t = v.
Proof.
  intros Hne Hall Hbvi. unfold exam_ok. simpl.
  assert (Hv : v <> []) by (intros ->; by apply Hne).
  apply nonempty_true in Hv, Hne. rewrite Hv, Hne.
  rewrite bool_decide_true by congruence. simpl.
  by case_decide.
Qed.

Lemma keeps_set_exam_type (h : heap) (args : filter_args) (o : option str)
    (lo hi : Z) (a : ref) :
  keeps B h (set_exam_type args o) lo hi a
  <-> exam_ok o (exam_type (h a)) /\ keeps B h (set_exam_type args None) lo hi a.
Proof. destruct args. unfold keeps. simpl. rewrite exam_ok_None. tauto. Qed.

Lemma kept_set_exam_type (P : str -> Prop) `{!forall t, Decision (P t)}
    (h : heap) (apps : list ref) (args : filter_args) (o : option str) :
  (forall t, exam_ok o t <-> P t) ->
  kept (filter_applicants B h apps (set_exam_type args o))
  = rmap (filter (fun a => P (exam_type (h a))))
         (kept (filter_applicants B h apps (set_exam_type args None))).
Proof.
  intros HP.
  assert (Hmin : forall o', arg_priority_min (set_exam_type args o')
                            = arg_priority_min args) by (by destruct args).
  assert (Hmax : forall o', arg_priority_max (set_exam_type args o')
                            = arg_priority_max args) by (by destruct args).
  destruct (arg_priority_min args) as [lo|] eqn:Hlo;
    [| rewrite !filter_applicants_Err by (rewrite Hmin; auto); done].
  destruct (arg_priority_max args) as [hi|] eqn:Hhi;
    [| rewrite !filter_applicants_Err by (rewrite Hmax; auto); done].
  rewrite !(filter_applicants_Ok B h apps _ lo hi) by (by rewrite ?Hmin, ?Hmax).
  unfold kept, rmap. simpl. f_equal.
  rewrite filter_sorted, list_filter_filter. f_equal.
  apply list_filter_iff. intros a. rewrite keeps_set_exam_type, HP. tauto.
Qed.

(** C4: with the other arguments fixed, the selector "Все" gives the very
    result of leaving the exam type unset; the selector "БВИ" returns
    exactly those records of the unconstrained result whose [exam_type] is
    not "ВЭ"; any other non-blank value returns exactly those whose
    [exam_type] equals it. *)
Theorem exam_type_selector (h : heap) (apps : list ref) (args : filter_args) :
  filter_applicants B h apps (set_exam_type args (Some s_All))
  = filter_applicants B h apps (set_exam_type args None) /\
  kept (filter_applicants B h apps (set_exam_type args (Some s_BVI)))
  = rmap (filter (fun a => exam_type (h a) <> s_VE))
         (kept (filter_applicants B h apps (set_exam_type args None))) /\
  (forall v, strip v <> [] -> v <> s_All -> v <> s_BVI ->
     kept (filter_applicants B h apps (set_exam_type args (Some v)))
     = rmap (filter (fun a => exam_type (h a) = v))
            (kept (filter_applicants B h apps (set_exam_type args None)))).
Proof.
  split_and!.
  - by destruct args.
  - exact (kept_set_exam_type (fun t => t <> s_VE) h apps args (Some s_BVI)
                               exam_ok_BVI).
  - intros v Hne Hall Hbvi.
    exact (kept_set_exam_type (fun t => t = v) h apps args (Some v)
             (fun t => exam_ok_other v t Hne Hall Hbvi)).
Qed.

End ExamType.

(** ** The cohort *)

Section Cohort.
Import App.
Context (B : PyBuiltins).

Lemma cohort_found (h : heap) (l : list ref) (sid : str) (i : nat) (a : ref) :
  strip sid <> [] ->
  list_find (fun b => application_id (h b) = strip sid) l = Some (i, a) ->
  cohort h l (Some sid)
  = (StatsCohort i
       (length (filter (fun b => exam_type (h b) <> s_VE) (take i l)))
       (length (filter (fun b => ovp (h b) = true) (take i l)))
       (length (filter (fun b => consent (h b) = true) (take i l)))
       a,
     take i l).
Proof.
  intros Hne Hfind. unfold cohort, idx_myself. simpl.
  assert (Hs : sid <> []) by (intros ->; by apply Hne).
  apply nonempty_true in Hs. rewrite Hs.
  rewrite (proj2 (nonempty_true _) Hne). simpl. rewrite Hfind. simpl.
  apply list_find_Some in Hfind as (Hi & _ & _).
  rewrite length_take_le by (apply lookup_lt_Some in Hi; lia).
  by rewrite (nth_lookup_Some _ _ _ _ Hi).
Qed.

Lemma cohort_not_found (h : heap) (l : list ref) (sid : str) :
  strip sid <> [] ->
  list_find (fun b => application_id (h b) = strip sid) l = None ->
  cohort h l (Some sid) = (StatsNotFound, []).
Proof.
  intros Hne Hfind. unfold cohort, idx_myself. simpl.
  assert (Hs : sid <> []) by (intros ->; by apply Hne).
  apply nonempty_true in Hs. rewrite Hs.
  rewrite (proj2 (nonempty_true _) Hne). simpl. by rewrite Hfind.
Qed.

(** C5: for a target that is non-empty after trimming, a returning call
    reports [not_found] when no returned record carries the trimmed
    target as its [application_id]; and when the first such record is at
    index [i], it reports [i] records before it, the counts of those with
    [exam_type] other than "ВЭ", with [ovp] and with [consent] among the
    first [i] returned records, and that record itself. *)
Theorem cohort_before_target
    (h : heap) (apps : list ref) (args : filter_args)
    (h' : heap) (res : FilterResult) (sid : str) :
  filter_applicants B h apps args = Ok (h', res) ->
  arg_stats_id args = Some sid ->
  strip sid <> [] ->
  ((forall a, a ∈ applicants res -> application_id (h' a) <> strip sid) ->
     stats res = StatsNotFound /\ stats_list res = []) /\
  (forall i a,
     applicants res !! i = Some a ->
     application_id (h' a) = strip sid ->
     (forall j b, applicants res !! j = Some b -> (j < i)%nat ->
        application_id (h' b) <> strip sid) ->
     stats res
     = StatsCohort i
         (length (filter (fun b => exam_type (h' b) <> s_VE)
                         (take i (applicants res))))
         (length (filter (fun b => ovp (h' b) = true) (take i (applicants res))))
         (length (filter (fun b => consent (h' b) = true)
                         (take i (applicants res))))
         a /\
     stats_list res = take i (applicants res)).
Proof.
  intros Hret Hsid Hne.
  destruct (filter_applicants_inv _ _ _ _ _ _ Hret)
    as (lo & hi & _ & _ & _ & _ & _ & _ & Hst).
  rewrite Hsid in Hst. split.
  - intros Hnone. rewrite cohort_not_found in Hst; [by injection Hst | done |].
    apply list_find_None, Forall_forall. intros a Ha. by apply Hnone.
  - intros i a Hi Ha Hfirst.
    rewrite (cohort_found _ _ _ i a) in Hst; [by injection Hst | done |].
    apply list_find_Some. eauto.
Qed.

End Cohort.

(** ** The priority range and the numeric comparisons *)

Section RangeAndScores.
Import App.
Context (B : PyBuiltins).

(** C1: a call in which a priority bound is left unset does not filter at
    all: ordering [None] in [min]/[max] raises [TypeError]. *)
Theorem priority_bound_unset_raises
    (h : heap) (apps : list ref) (args : filter_args) :
  arg_priority_min args = None \/ arg_priority_max args = None ->
  filter_applicants B h apps args = Err TypeError.
Proof. apply filter_applicants_Err. Qed.

(** X1: with both bounds given the call returns, the order of the bounds is
    immaterial, and the returned records are those of the input whose
    priority lies between the smaller and the larger bound and which pass
    the other stages. *)
Lemma priority_range_normalized
    (h : heap) (apps : list ref) (args : filter_args) (lo hi : Z) :
  arg_priority_min args = Some lo ->
  arg_priority_max args = Some hi ->
  exists h' res,
    filter_applicants B h apps args = Ok (h', res) /\
    forall a, a ∈ applicants res <->
      a ∈ apps /\ Z.min lo hi <= priority (h a) <= Z.max lo hi /\
      keeps B h args (priority (h a)) (priority (h a)) a.
Proof.
  intros Hlo Hhi. eexists _, _. split; [by apply filter_applicants_Ok |].
  intros a. simpl. rewrite elem_of_sorted, list_elem_of_filter.
  unfold keeps.
  destruct (Z.ltb_spec hi lo), (Z.gtb_spec hi lo),
    (Z.ltb_spec (priority (h a)) (priority (h a))),
    (Z.gtb_spec (priority (h a)) (priority (h a)));
    intuition lia.
Qed.

(** C8: a comparison whose value does not parse as a float is as if it
    were not set: the call behaves exactly as with that comparison
    removed, all other arguments being applied as they are. *)
Theorem unparseable_value_disables_comparison
    (h : heap) (apps : list ref) (args : filter_args) :
  (forall v, arg_average_score_val args = Some v -> py_float B v = None ->
     filter_applicants B h apps args
     = filter_applicants B h apps (set_average_score args None None)) /\
  (forall v, arg_exam_score_val args = Some v -> py_float B v = None ->
     filter_applicants B h apps args
     = filter_applicants B h apps (set_exam_score args None None)) /\
  (forall v, arg_total_score_val args = Some v -> py_float B v = None ->
     filter_applicants B h apps args
     = filter_applicants B h apps (set_total_score args None None)).
Proof.
  assert (Hoff : forall field op v l, py_float B v = None ->
            score_filter B h field op (Some v) l = l).
  { intros field op v l Hv. unfold score_filter. simpl. rewrite Hv.
    by destruct (truthy op && nonempty v). }
  destruct args as [? ? ? ? ? ? ? ? ? ? ? ? pmin pmax]. simpl.
  split_and!; intros v -> Hv; unfold filter_applicants;
    cbn [arg_average_score_val arg_exam_score_val arg_total_score_val
         arg_priority_min arg_priority_max];
    (destruct pmin, pmax; [| done..]);
    cbn [py_min py_max bind]; by rewrite Hoff.
Qed.

End RangeAndScores.

(** ** The extractors *)

Section Extraction.
Context (B : PyBuiltins).

Lemma parse_cards_app (cs : list Card) (acc : list App.Applicant) :
  App.parse_cards B cs acc = acc ++ App.parse_cards B cs [].
Proof.
  revert acc. induction cs as [|c cs IH]; intros acc; simpl.
  - by rewrite app_nil_r.
  - destruct (App.card_to_applicant B c) as [a | e]; [| apply IH].
    rewrite (IH (acc ++ [a])), (IH [a]). by rewrite <- app_assoc.
Qed.

(** The loop of [app.py] keeps the cards that parse, in page order. *)
Lemma parse_cards_omap (cs : list Card) :
  App.parse_cards B cs []
  = omap (fun c => match App.card_to_applicant B c with
                   | Ok a => Some a
                   | Err _ => None
                   end) cs.
Proof.
  induction cs as [|c cs IH]; simpl; [done |].
  destruct (App.card_to_applicant B c) as [a | e]; [| done].
  by rewrite parse_cards_app, IH.
Qed.

(** X2: in [app.py] a retrieved page always gives a list, made of the
    records of the cards that parse, in page order. *)
Lemma app_extraction_isolates_cards (net : network) (url : str) (r : Response) :
  net url = Some r -> status_ok r = true ->
  App.parse_itmo_rating B net url
  = Ok (omap (fun c => match App.card_to_applicant B c with
                       | Ok a => Some a
                       | Err _ => None
                       end) (cards r)).
Proof.
  intros Hnet Hok. unfold App.parse_itmo_rating.
  by rewrite Hnet, Hok, parse_cards_omap.
Qed.

(** X3: both extractors raise when the request fails or the response is
    not a success. *)
Lemma fetch_failure_is_raised (net : network) (url : str) (o v c : option bool) :
  net url = None \/ (exists r, net url = Some r /\ status_ok r = false) ->
  (exists e, App.parse_itmo_rating B net url = Err (Exception e)) /\
  (exists e, Main.parse_itmo_rating B net url o v c = Err (Exception e)).
Proof.
  unfold App.parse_itmo_rating, Main.parse_itmo_rating.
  intros [-> | (r & -> & ->)]; simpl; eauto.
Qed.

(** C6, at the input where it fails: on a page that was retrieved and has
    no card block, [app.py] returns the empty list, while [main.py]
    raises. *)
Theorem empty_page_is_not_an_error_in_app (url : str) (o v c : option bool) :
  App.parse_itmo_rating B (fun _ => Some empty_page) url = Ok [] /\
  Main.parse_itmo_rating B (fun _ => Some empty_page) url o v c
  = Err (Exception ValueError).
Proof. done. Qed.

End Extraction.

(** C7, at the input where it fails: on the sample page (five well-formed
    cards and one without its priority) [app.py] returns the five
    records, while [main.py] raises. *)
Theorem one_bad_card_fails_main :
  (exists l, App.parse_itmo_rating sample_builtins (fun _ => Some sample_page)
               sample_url = Ok l /\
             List.map App.application_id l
             = [lit "101"; lit "102"; lit "104"; lit "105"; lit "106"]) /\
  Main.parse_itmo_rating sample_builtins (fun _ => Some sample_page) sample_url
    None None None
  = Err (Exception AttributeError).
Proof. split; [eexists; split |]; vm_compute; reflexivity. Qed.

(** ** The cache *)

Lemma SFcompare_antisym (a b : spec_float) :
  SFcompare b a = CompOpp <$> SFcompare a b.
Proof.
  destruct a as [s1 | s1 | | s1 m1 e1], b as [s2 | s2 | | s2 m2 e2];
    simpl; try done; try (by destruct s1); try (by destruct s2);
    try (by destruct s1, s2).
  destruct s1, s2; simpl; try done;
    rewrite (Z.compare_antisym e1 e2); destruct (e1 ?= e2); simpl;
    by rewrite ?CompOpp_involutive, ?Pos.compare_cont_antisym.
Qed.

(** On floats, [y <= x] excludes [x < y]. *)
Lemma float_leb_not_ltb (x y : float) :
  PrimFloat.leb y x = true -> PrimFloat.ltb x y = false.
Proof.
  rewrite leb_spec, ltb_spec. unfold SFleb, SFltb.
  rewrite (SFcompare_antisym (Prim2SF y) (Prim2SF x)).
  by destruct (SFcompare (Prim2SF y) (Prim2SF x)) as [[]|].
Qed.

Section CacheTheorems.
Import App.
Context (B : PyBuiltins).

(** A worker whose extraction raises leaves the cache as it is. *)
Lemma failed_refresh_keeps_cache (net : network) (now : float) (st : AppState)
    (url : str) (rest : list str) (err : exn) :
  submitted st = url :: rest ->
  parse_itmo_rating B net url = Err err ->
  cached_applicants (run_submitted B net now st) = cached_applicants st.
Proof.
  intros Hq Herr. unfold run_submitted, parse_and_cache. by rewrite Hq, Herr.
Qed.

(** C9, at the input where it fails: a refresh that retrieves a page
    without any card block does not raise in [app.py], so it replaces
    whatever entry the address had, a stale one included, by the empty
    list; the call that follows within [CACHE_TTL] serves that empty
    list. *)
Theorem empty_refresh_replaces_entry
    (net : network) (now : float) (url : str) (st : AppState) (r : Response) :
  net url = Some r -> status_ok r = true -> cards r = [] ->
  cached_applicants (parse_and_cache B net now url st) !! url
  = Some (mkEntry now []) /\
  (forall net' now',
     PrimFloat.ltb (PrimFloat.sub now' now) CACHE_TTL = true ->
     exists st', get_applicants_with_cache B net' now' url
                   (parse_and_cache B net now url st) = Ok ([], st')).
Proof.
  intros Hnet Hok Hcards.
  assert (Hparse : parse_itmo_rating B net url = Ok []).
  { unfold parse_itmo_rating. by rewrite Hnet, Hok, Hcards. }
  assert (He : cached_applicants (parse_and_cache B net now url st) !! url
               = Some (mkEntry now [])).
  { unfold parse_and_cache. rewrite Hparse. simpl. apply lookup_insert_eq. }
  split; [exact He |].
  intros net' now' Hfresh. unfold get_applicants_with_cache.
  rewrite He. simpl. rewrite Hfresh. eauto.
Qed.

(** X25: with an entry [e] cached for [url], a call made while
    [now - ts e < CACHE_TTL] returns the cached list and leaves the state
    as it is; a call made when [CACHE_TTL <= now - ts e] returns the same
    cached list, whatever the network would answer, and only adds one
    submitted refresh; and a refresh whose extraction raises leaves the
    state, hence the entry, as it is. *)
Theorem cache_hit_and_failed_refresh
    (net : network) (now : float) (url : str) (st : AppState) (e : CacheEntry) :
  cached_applicants st !! url = Some e ->
  (PrimFloat.ltb (PrimFloat.sub now (ts e)) CACHE_TTL = true ->
     get_applicants_with_cache B net now url st = Ok (data e, st)) /\
  (PrimFloat.leb CACHE_TTL (PrimFloat.sub now (ts e)) = true ->
     get_applicants_with_cache B net now url st
     = Ok (data e, executor_submit st url) /\
     cached_applicants (executor_submit st url) = cached_applicants st /\
     submitted (executor_submit st url) = submitted st ++ [url]) /\
  (forall now' err, parse_itmo_rating B net url = Err err ->
     parse_and_cache B net now' url st = st /\
     cached_applicants (parse_and_cache B net now' url (executor_submit st url))
       !! url = Some e).
Proof.
  intros He. unfold get_applicants_with_cache, parse_and_cache.
  rewrite He. split_and!.
  - by intros ->.
  - intros Hstale. by rewrite (float_leb_not_ltb _ _ Hstale).
  - intros now' err ->. done.
Qed.

End CacheTheorems.

(** ** The theorems at the sample data *)

Lemma priority_bound_unset_raises_witness :
  (App.arg_priority_min min_only = None \/ App.arg_priority_max min_only = None) /\
  App.filter_applicants sample_builtins sample_heap [0; 1; 2]%nat min_only
  = Err TypeError.
Proof.
  split; [right; reflexivity |].
  apply (priority_bound_unset_raises sample_builtins). right. reflexivity.
Defined.

Lemma priority_range_normalized_witness :
  exists h' res,
    App.filter_applicants sample_builtins sample_heap [0; 1; 2]%nat range_only
    = Ok (h', res) /\
    forall a, a ∈ App.applicants res <->
      a ∈ [0; 1; 2]%nat /\
      Z.min 10 1 <= App.priority (sample_heap a) <= Z.max 10 1 /\
      keeps sample_builtins sample_heap range_only
            (App.priority (sample_heap a)) (App.priority (sample_heap a)) a.
Proof.
  apply (priority_range_normalized sample_builtins sample_heap [0; 1; 2]%nat
           range_only 10 1); reflexivity.
Defined.

Lemma filter_applicants_counts_and_predicates_witness :
  exists h' res,
    App.filter_applicants sample_builtins sample_heap [2; 0; 1]%nat all_set
    = Ok (h', res) /\
    App.applicants res = [0%nat] /\
    (App.filtered_count res <= App.total_count res)%nat /\
    App.total_count res = 3%nat /\
    App.filtered_count res = length (App.applicants res) /\
    Forall (fun a => satisfies_active sample_builtins all_set (h' a))
           (App.applicants res).
Proof.
  eexists _, _. split; [reflexivity |]. split; [reflexivity |].
  apply (filter_applicants_counts_and_predicates sample_builtins sample_heap
           [2; 0; 1]%nat all_set).
  reflexivity.
Defined.

Lemma filter_applicants_sorted_and_ranked_witness :
  exists h' res,
    App.filter_applicants sample_builtins sample_heap [2; 0; 1]%nat range_only
    = Ok (h', res) /\
    App.applicants res = [1; 0; 2]%nat /\
    StronglySorted (key_le (fun a => App.position (h' a))) (App.applicants res) /\
    (forall p, filter (fun a => App.position (h' a) = p) (App.applicants res)
               `sublist_of` [2; 0; 1]%nat) /\
    List.map (fun a => App.filtered_position (h' a)) (App.applicants res)
    = ranks (App.filtered_count res).
Proof.
  eexists _, _. split; [reflexivity |]. split; [reflexivity |].
  destruct (filter_applicants_sorted_and_ranked sample_builtins sample_heap
              [2; 0; 1]%nat range_only _ _ eq_refl)
    as (Hsorted & Hstable & _ & Hranks).
  split_and!; [exact Hsorted | exact Hstable |].
  apply Hranks. apply (bool_decide_unpack _). vm_compute. exact I.
Defined.

(** A list in which one object occupies two slots, which the extractor
    never builds: both slots of the result read the rank written last. *)
Lemma aliased_record_reads_one_rank :
  exists h' res,
    App.filter_applicants sample_builtins sample_heap [0; 0]%nat range_only
    = Ok (h', res) /\
    App.applicants res = [0; 0]%nat /\
    List.map (fun a => App.filtered_position (h' a)) (App.applicants res) = [2; 2] /\
    ranks (App.filtered_count res) = [1; 2] /\
    List.map (fun a => App.filtered_position (h' a)) (App.applicants res)
    <> ranks (App.filtered_count res).
Proof. eexists _, _. split_and!; [reflexivity.. | discriminate]. Qed.

Lemma filter_applicants_frame_witness :
  exists h' res,
    App.filter_applicants sample_builtins sample_heap [2; 0; 1]%nat all_set
    = Ok (h', res) /\
    (forall r, h' r = App.with_filtered_position (sample_heap r)
                        (App.filtered_position (h' r))) /\
    (forall r, r ∉ App.applicants res -> h' r = sample_heap r) /\
    App.applicants res ⊆+ [2; 0; 1]%nat /\
    (NoDup [2; 0; 1]%nat -> NoDup (App.applicants res)).
Proof.
  eexists _, _. split; [reflexivity |].
  apply (filter_applicants_frame sample_builtins sample_heap
           [2; 0; 1]%nat all_set).
  reflexivity.
Defined.

Lemma exam_type_selector_witness :
  kept (App.filter_applicants sample_builtins sample_heap [2; 0; 1]%nat
          (set_exam_type range_only (Some s_BVI)))
  = Ok [1%nat] /\
  kept (App.filter_applicants sample_builtins sample_heap [2; 0; 1]%nat
          (set_exam_type range_only (Some s_VE)))
  = Ok [0; 2]%nat.
Proof.
  destruct (exam_type_selector sample_builtins sample_heap [2; 0; 1]%nat range_only)
    as (_ & Hbvi & Hother).
  split.
  - rewrite Hbvi. reflexivity.
  - rewrite (Hother s_VE); [reflexivity | discriminate..].
Defined.

Lemma cohort_before_target_witness :
  exists h' res,
    App.filter_applicants sample_builtins sample_heap [2; 0; 1]%nat
      range_and_target = Ok (h', res) /\
    App.applicants res = [1; 0; 2]%nat /\
    App.stats res = App.StatsCohort 2 1 1 2 2%nat /\
    App.stats_list res = [1; 0]%nat.
Proof.
  edestruct cohort_before_target
    with (B := sample_builtins) (h := sample_heap) (apps := [2; 0; 1]%nat)
         (args := range_and_target) (sid := lit " 300 ") as [_ Hfound];
    [reflexivity | reflexivity | discriminate |].
  eexists _, _. split; [reflexivity |]. split; [reflexivity |].
  refine (Hfound 2%nat 2%nat _ _ _).
  - reflexivity.
  - reflexivity.
  - intros [|[|j]] b Hb Hj; [| | lia];
      vm_compute in Hb; injection Hb as <-; vm_compute; discriminate.
Defined.

Lemma unparseable_value_disables_comparison_witness :
  App.arg_average_score_val all_set = Some (lit "abc") /\
  py_float sample_builtins (lit "abc") = None /\
  App.filter_applicants sample_builtins sample_heap [2; 0; 1]%nat all_set
  = App.filter_applicants sample_builtins sample_heap [2; 0; 1]%nat
      (set_average_score all_set None None).
Proof.
  split_and!; [reflexivity.. |].
  destruct (unparseable_value_disables_comparison sample_builtins sample_heap
              [2; 0; 1]%nat all_set) as (Havg & _ & _).
  apply (Havg (lit "abc")); reflexivity.
Defined.

Lemma cache_hit_and_failed_refresh_witness :
  App.cached_applicants sample_state !! sample_url
  = Some (App.mkEntry 1000 [0; 1; 2]%nat) /\
  App.get_applicants_with_cache sample_builtins offline 1299.5 sample_url
    sample_state = Ok ([0; 1; 2]%nat, sample_state) /\
  App.get_applicants_with_cache sample_builtins offline 1300 sample_url
    sample_state = Ok ([0; 1; 2]%nat, App.executor_submit sample_state sample_url) /\
  App.parse_and_cache sample_builtins offline 1301 sample_url sample_state
  = sample_state.
Proof.
  assert (He : App.cached_applicants sample_state !! sample_url
               = Some (App.mkEntry 1000 [0; 1; 2]%nat))
    by (vm_compute; reflexivity).
  split; [exact He |].
  destruct (cache_hit_and_failed_refresh sample_builtins offline 1299.5
              sample_url sample_state _ He) as (Hfresh & _ & _).
  destruct (cache_hit_and_failed_refresh sample_builtins offline 1300
              sample_url sample_state _ He) as (_ & Hstale & Hfail).
  split_and!.
  - apply Hfresh. vm_compute. reflexivity.
  - apply Hstale. vm_compute. reflexivity.
  - apply (Hfail 1301%float (Exception ConnectionError)). reflexivity.
Defined.

Lemma app_extraction_isolates_cards_witness :
  App.parse_itmo_rating sample_builtins (fun _ => Some sample_page) sample_url
  = Ok (omap (fun c => match App.card_to_applicant sample_builtins c with
                       | Ok a => Some a
                       | Err _ => None
                       end) (cards sample_page)).
Proof.
  apply (app_extraction_isolates_cards sample_builtins (fun _ => Some sample_page)
           sample_url sample_page); reflexivity.
Defined.

Lemma fetch_failure_is_raised_witness :
  (exists e, App.parse_itmo_rating sample_builtins offline sample_url
             = Err (Exception e)) /\
  (exists e, Main.parse_itmo_rating sample_builtins offline sample_url
               None None None = Err (Exception e)).
Proof.
  apply (fetch_failure_is_raised sample_builtins offline sample_url).
  left. reflexivity.
Defined.

(** * Further properties *)

(** ** [sorted], continued *)

Section SortedMore.
Context {A : Type} (key : A -> Z).

Lemma insert_by_head (x : A) (l : list A) :
  Forall (fun y => key x <= key y) l -> insert_by key x l = x :: l.
Proof.
  destruct l as [|y l]; [done |]. intros Hall.
  apply Forall_cons in Hall as [Hy _]. simpl.
  destruct (Z.ltb_spec (key y) (key x)); [lia | done].
Qed.

(** Sorting a list that is already ascending returns it. *)
Lemma sorted_of_sorted (l : list A) :
  StronglySorted (key_le key) l -> sorted key l = l.
Proof.
  induction l as [|x l IH]; intros Hs; simpl; [done |].
  apply StronglySorted_inv in Hs as [Hl Hx].
  rewrite IH by done. by apply insert_by_head.
Qed.

Lemma sorted_idem (l : list A) : sorted key (sorted key l) = sorted key l.
Proof. apply sorted_of_sorted, sorted_StronglySorted. Qed.

End SortedMore.

Lemma stage_flag_gen {A} (f : A -> bool) (o : option bool) (l : list A) :
  match o with
  | Some b => filter (fun a => f a = b) l
  | None => l
  end = filter (fun a => flag_ok o (f a)) l.
Proof.
  destruct o as [b|]; simpl.
  - by apply list_filter_iff.
  - by rewrite filter_all.
Qed.

(** ** [main.py]: [filter_applicants] *)

Section MainFilter.
Import Main.

(** The three flags as one predicate. *)
Lemma main_filter_applicants_eq (l : list Applicant) (o v c : option bool) :
  filter_applicants l o v c
  = sorted position
      (filter (fun a => flag_ok o (ovp a) /\ flag_ok v (vpp a)
                        /\ flag_ok c (consent a)) l).
Proof.
  unfold filter_applicants. cbv zeta.
  rewrite (stage_flag_gen ovp), (stage_flag_gen vpp), (stage_flag_gen consent).
  rewrite !list_filter_filter. f_equal.
  apply list_filter_iff. intros a. tauto.
Qed.

(** X4: [filter_applicants] of [main.py] returns exactly the records that
    match every flag that is set, ascending by [position], records of
    equal [position] in their input order, none more often than given. *)
Theorem main_filter_sorted_matching (l : list Applicant) (o v c : option bool) :
  StronglySorted (key_le position) (filter_applicants l o v c) /\
  (forall a, a ∈ filter_applicants l o v c <->
     a ∈ l /\ flag_ok o (ovp a) /\ flag_ok v (vpp a) /\ flag_ok c (consent a)) /\
  (forall p, filter (fun a => position a = p) (filter_applicants l o v c)
             `sublist_of` l) /\
  filter_applicants l o v c ⊆+ l.
Proof.
  rewrite main_filter_applicants_eq. split_and!.
  - apply sorted_StronglySorted.
  - intros a. rewrite elem_of_sorted, list_elem_of_filter. tauto.
  - intros p. rewrite sorted_stable. etrans; apply sublist_filter.
  - rewrite sorted_perm. apply sublist_submseteq, sublist_filter.
Qed.

(** X5: filtering the result again with the same flags changes nothing. *)
Theorem main_filter_idempotent (l : list Applicant) (o v c : option bool) :
  filter_applicants (filter_applicants l o v c) o v c = filter_applicants l o v c.
Proof.
  rewrite !main_filter_applicants_eq.
  rewrite filter_sorted, list_filter_filter, sorted_idem. f_equal.
  apply list_filter_iff. intros a. tauto.
Qed.

End MainFilter.

(** ** [main.py]: the extractor *)

Section MainExtraction.
Context (B : PyBuiltins).

Lemma parse_all_Ok (cs : list Card) (l : list Main.Applicant) :
  Main.parse_all B cs = Ok l <->
  Forall2 (fun c a => Main.parse_applicant_card B c = Ok a) cs l.
Proof.
  revert l. induction cs as [|c cs IH]; intros l; simpl.
  - split; [intros [= <-]; constructor | by inversion 1].
  - destruct (Main.parse_applicant_card B c) as [a | e] eqn:Hc; simpl.
    + destruct (Main.parse_all B cs) as [l' | e] eqn:Hcs; simpl.
      * split.
        -- intros [= <-]. constructor; [done | by apply IH].
        -- inversion 1 as [|? a' ? l'' Ha Hl]; subst.
           apply IH in Hl. congruence.
      * split; [done |]. inversion 1 as [|? a' ? l'' Ha Hl]; subst.
        apply IH in Hl. discriminate.
    + split; [done |]. inversion 1; congruence.
Qed.

Lemma parse_all_Err (cs : list Card) (c : Card) (e : exn) :
  c ∈ cs -> Main.parse_applicant_card B c = Err e ->
  exists e', Main.parse_all B cs = Err e'.
Proof.
  intros Hin Hc. induction cs as [|c' cs IH]; [by apply elem_of_nil in Hin |].
  simpl. destruct (Main.parse_applicant_card B c') as [a | e1] eqn:Hc';
    simpl; [| eauto].
  apply elem_of_cons in Hin as [-> | Hin]; [congruence |].
  destruct (IH Hin) as [e' ->]. simpl. eauto.
Qed.

(** X6: a call of [main.py] without filters that returns has retrieved a
    page with at least one card and returns one record per card, in page
    order: never an empty list. *)
Theorem main_unfiltered_one_record_per_card
    (net : network) (url : str) (l : list Main.Applicant) :
  Main.parse_itmo_rating B net url None None None = Ok l ->
  exists r, net url = Some r /\ status_ok r = true /\
    Forall2 (fun c a => Main.parse_applicant_card B c = Ok a) (cards r) l /\
    length l = length (cards r) /\ l <> [].
Proof.
  unfold Main.parse_itmo_rating. intros Hret.
  destruct (net url) as [r|]; [| done]. exists r.
  destruct (status_ok r); [| done]. simpl in Hret.
  destruct (cards r) as [|c cs] eqn:Hcs; [done |].
  destruct (Main.parse_all B (c :: cs)) as [l' | e] eqn:Hall; [| done].
  simpl in Hret. injection Hret as ->.
  apply parse_all_Ok in Hall. split_and!; try done.
  - by apply Forall2_length in Hall.
  - intros ->. inversion Hall.
Qed.

(** X7: in [main.py] one card that fails to parse fails the whole call,
    whatever the other cards and the filters are. *)
Theorem main_any_bad_card_raises (net : network) (url : str) (r : Response)
    (c : Card) (e : exn) (o v cf : option bool) :
  net url = Some r -> c ∈ cards r ->
  Main.parse_applicant_card B c = Err e ->
  exists e', Main.parse_itmo_rating B net url o v cf = Err (Exception e').
Proof.
  intros Hnet Hin Hc. unfold Main.parse_itmo_rating. rewrite Hnet.
  destruct (status_ok r); simpl; [| eauto].
  destruct (cards r) as [|c' cs] eqn:Hcs; [eauto |].
  destruct (parse_all_Err (c' :: cs) c e Hin Hc) as [e' ->]. simpl. eauto.
Qed.

(** X8: with at least one filter given, [main.py] returns the unfiltered
    result passed through [filter_applicants], and raises what the
    unfiltered call raises. *)
Theorem main_filtered_is_filter_of_unfiltered
    (net : network) (url : str) (o v c : option bool) :
  is_Some_b o || is_Some_b v || is_Some_b c = true ->
  Main.parse_itmo_rating B net url o v c
  = rmap (fun l => Main.filter_applicants l o v c)
         (Main.parse_itmo_rating B net url None None None).
Proof.
  intros Hany. unfold Main.parse_itmo_rating. rewrite Hany.
  destruct (net url) as [r|]; [| done].
  destruct (status_ok r); [| done]. simpl.
  destruct (cards r) as [|c' cs]; [done |].
  by destruct (Main.parse_all B (c' :: cs)).
Qed.

(** X9: a card that [app.py] accepts is accepted by [main.py] with the
    same field values, and the record [app.py] builds has
    [filtered_position] 0. *)
Theorem card_parsers_agree (card : Card) (a : App.Applicant) :
  App.card_to_applicant B card = Ok a ->
  Main.parse_applicant_card B card = Ok (to_main a) /\
  App.filtered_position a = 0.
Proof.
  unfold App.card_to_applicant, Main.parse_applicant_card, to_float, to_int.
  destruct card as [p i t ei es tsc av pr ov vp co]. simpl.
  destruct p as [p|]; simpl; [| done].
  destruct (py_int B (strip p)); simpl; [| done].
  destruct i; simpl; [| done]. destruct t; simpl; [| done].
  destruct ei as [ei|]; simpl; [| done].
  destruct (py_int B ei); simpl; [| done].
  destruct es as [es|]; simpl; [| done].
  destruct (py_float B es); simpl; [| done].
  destruct tsc as [tsc|]; simpl; [| done].
  destruct (py_float B tsc); simpl; [| done].
  destruct av as [av|]; simpl; [| done].
  destruct (py_float B av); simpl; [| done].
  destruct pr as [pr|]; simpl; [| done].
  destruct (py_int B pr); simpl; [| done].
  destruct ov; simpl; [| done]. destruct vp; simpl; [| done].
  destruct co; simpl; [| done].
  by intros [= <-].
Qed.

(** X10: a card without its average-score node is rejected by [app.py],
    while [main.py], when it accepts the card, records the average 0.0. *)
Theorem missing_average_score (card : Card) :
  average_score_text card = None ->
  (exists e, App.card_to_applicant B card = Err e) /\
  (forall a, Main.parse_applicant_card B card = Ok a ->
             Main.average_score a = 0%float).
Proof.
  unfold App.card_to_applicant, Main.parse_applicant_card, to_float, to_int.
  destruct card as [p i t ei es tsc av pr ov vp co]. simpl. intros ->. split.
  - destruct p as [p|]; simpl; [| by eauto].
    destruct (py_int B (strip p)); simpl; [| by eauto].
    destruct i; simpl; [| by eauto]. destruct t; simpl; [| by eauto].
    destruct ei as [ei|]; simpl; [| by eauto].
    destruct (py_int B ei); simpl; [| by eauto].
    destruct es as [es|]; simpl; [| by eauto].
    destruct (py_float B es); simpl; [| by eauto].
    destruct tsc as [tsc|]; simpl; [| by eauto].
    destruct (py_float B tsc); simpl; by eauto.
  - intros a.
    destruct p as [p|]; simpl; [| done].
    destruct (py_int B (strip p)); simpl; [| done].
    destruct i; simpl; [| done].
    destruct pr as [pr|]; simpl; [| done].
    destruct (py_int B pr); simpl; [| done].
    destruct t; simpl; [| done].
    destruct ei as [ei|]; simpl; [| done].
    destruct (py_int B ei); simpl; [| done].
    destruct es as [es|]; simpl; [| done].
    destruct (py_float B es); simpl; [| done].
    destruct tsc as [tsc|]; simpl; [| done].
    destruct (py_float B tsc); simpl; [| done].
    destruct ov; simpl; [| done]. destruct vp; simpl; [| done].
    destruct co; simpl; [| done].
    by intros [= <-].
Qed.

End MainExtraction.

(** ** Allocation and the cache *)

Section CacheMore.
Import App.
Context (B : PyBuiltins).

(** Fresh objects get the next references, hold the values given, and
    leave every existing object as it was. *)
Lemma new_objects_spec (values : list Applicant) (h : heap) (next : ref) :
  exists h',
    new_objects h next values
    = (h', (next + length values)%nat, seq next (length values)) /\
    List.map h' (seq next (length values)) = values /\
    (forall r, (r < next)%nat -> h' r = h r).
Proof.
  revert h next. induction values as [|v values IH]; intros h next; simpl.
  - exists h. by rewrite Nat.add_0_r.
  - destruct (IH (fun r => if Nat.eqb r next then v else h r) (S next))
      as (h' & -> & Hvals & Hold).
    exists h'. split_and!.
    + do 2 f_equal. lia.
    + rewrite Hvals. f_equal. rewrite Hold by lia. by rewrite Nat.eqb_refl.
    + intros r Hr. rewrite Hold by lia.
      destruct (Nat.eqb_spec r next); [lia | done].
Qed.

Lemma store_entry_spec (st : AppState) (url : str) (now : float)
    (values : list Applicant) :
  exists h',
    store_entry st url now values
    = (seq (next_ref st) (length values),
       {| objects := h'; next_ref := (next_ref st + length values)%nat;
          cached_applicants :=
            <[url := mkEntry now (seq (next_ref st) (length values))]>
              (cached_applicants st);
          submitted := submitted st |}) /\
    List.map h' (seq (next_ref st) (length values)) = values /\
    (forall r, (r < next_ref st)%nat -> h' r = objects st r).
Proof.
  unfold store_entry.
  destruct (new_objects_spec values (objects st) (next_ref st))
    as (h' & -> & Hvals & Hold).
  by exists h'.
Qed.

(** X11: a miss whose extraction succeeds returns pairwise distinct, newly
    made objects holding the extracted values, and every later call for
    the same address made less than [CACHE_TTL] after it returns that very
    list and changes nothing, whatever the network would answer. *)
Theorem cache_miss_then_hit
    (net : network) (now : float) (url : str) (st : AppState)
    (values : list Applicant) :
  cached_applicants st !! url = None ->
  parse_itmo_rating B net url = Ok values ->
  exists refs st',
    get_applicants_with_cache B net now url st = Ok (refs, st') /\
    List.map (objects st') refs = values /\
    NoDup refs /\
    Forall (fun r => (next_ref st <= r < next_ref st')%nat) refs /\
    (forall net' now',
       PrimFloat.ltb (PrimFloat.sub now' now) CACHE_TTL = true ->
       get_applicants_with_cache B net' now' url st' = Ok (refs, st')).
Proof.
  intros Hmiss Hparse. unfold get_applicants_with_cache at 1.
  rewrite Hmiss, Hparse. simpl.
  destruct (store_entry_spec st url now values) as (h' & -> & Hvals & Hold).
  eexists _, _. split_and!; [done | done | apply NoDup_seq | |].
  - apply Forall_forall. intros r Hr. apply elem_of_seq in Hr. simpl. lia.
  - intros net' now' Hfresh. unfold get_applicants_with_cache. simpl.
    rewrite lookup_insert_eq. simpl. by rewrite Hfresh.
Qed.

(** X12: a call of [get_applicants_with_cache] that returns, and any
    refresh, leaves the entries of all other addresses and all existing
    objects as they were. *)
Theorem cache_touches_one_address
    (net : network) (now : float) (url : str) (st : AppState) :
  (forall l st', get_applicants_with_cache B net now url st = Ok (l, st') ->
     (forall url', url' <> url ->
        cached_applicants st' !! url' = cached_applicants st !! url') /\
     (forall r, (r < next_ref st)%nat -> objects st' r = objects st r)) /\
  (forall url', url' <> url ->
     cached_applicants (parse_and_cache B net now url st) !! url'
     = cached_applicants st !! url') /\
  (forall r, (r < next_ref st)%nat ->
     objects (parse_and_cache B net now url st) r = objects st r).
Proof.
  unfold get_applicants_with_cache, parse_and_cache. split_and!.
  - intros l st' Hret.
    destruct (cached_applicants st !! url) as [e|].
    + destruct (PrimFloat.ltb _ _); by injection Hret as <- <-.
    + destruct (parse_itmo_rating B net url) as [values|]; [| done].
      simpl in Hret.
      destruct (store_entry_spec st url now values) as (h' & Heq & _ & Hold).
      rewrite Heq in Hret. injection Hret as <- <-. simpl. split; [| done].
      intros url' Hne. by rewrite lookup_insert_ne.
  - intros url' Hne.
    destruct (parse_itmo_rating B net url) as [values|]; [| done].
    destruct (store_entry_spec st url now values) as (h' & -> & _ & _).
    simpl. by rewrite lookup_insert_ne.
  - intros r Hr.
    destruct (parse_itmo_rating B net url) as [values|]; [| done].
    destruct (store_entry_spec st url now values) as (h' & -> & _ & Hold).
    simpl. by apply Hold.
Qed.

(** X13: a refresh whose extraction succeeds replaces the entry by newly
    made objects holding the new values, stamped with the time read after
    the extraction; the list served before keeps naming the old objects,
    which are unchanged. *)
Theorem refresh_replaces_entry
    (net : network) (now : float) (url : str) (st : AppState)
    (values : list Applicant) :
  parse_itmo_rating B net url = Ok values ->
  exists refs,
    cached_applicants (parse_and_cache B net now url st) !! url
    = Some (mkEntry now refs) /\
    List.map (objects (parse_and_cache B net now url st)) refs = values /\
    NoDup refs /\
    Forall (fun r => (next_ref st <= r)%nat) refs /\
    (forall r, (r < next_ref st)%nat ->
       objects (parse_and_cache B net now url st) r = objects st r).
Proof.
  intros Hparse. unfold parse_and_cache. rewrite Hparse.
  destruct (store_entry_spec st url now values) as (h' & -> & Hvals & Hold).
  simpl. eexists. split_and!; [apply lookup_insert_eq | done | apply NoDup_seq | | done].
  apply Forall_forall. intros r Hr. apply elem_of_seq in Hr. lia.
Qed.

Lemma cache_wf_store (st : AppState) (url : str) (now : float)
    (values : list Applicant) :
  cache_wf st -> cache_wf (snd (store_entry st url now values)).
Proof.
  intros Hwf.
  destruct (store_entry_spec st url now values) as (h' & -> & _ & _).
  intros url' e. simpl. destruct (decide (url = url')) as [<- | Hne].
  - rewrite lookup_insert_eq. intros [= <-]. simpl. split; [apply NoDup_seq |].
    apply Forall_forall. intros r Hr. apply elem_of_seq in Hr. lia.
  - rewrite lookup_insert_ne by done. intros He.
    destruct (Hwf url' e He) as [Hnd Hlt]. split; [done |].
    eapply Forall_impl; [exact Hlt |]. simpl. intros; lia.
Qed.

Lemma cache_wf_parse_and_cache (net : network) (now : float) (url : str)
    (st : AppState) :
  cache_wf st -> cache_wf (parse_and_cache B net now url st).
Proof.
  intros Hwf. unfold parse_and_cache.
  destruct (parse_itmo_rating B net url); [by apply cache_wf_store | done].
Qed.

(** A returning call serves the list of the entry its state then holds. *)
Lemma get_applicants_with_cache_entry (net : network) (now : float) (url : str)
    (st : AppState) (l : list ref) (st' : AppState) :
  get_applicants_with_cache B net now url st = Ok (l, st') ->
  exists e, cached_applicants st' !! url = Some e /\ data e = l.
Proof.
  unfold get_applicants_with_cache. intros Hret.
  destruct (cached_applicants st !! url) as [e|] eqn:He.
  - exists e. destruct (PrimFloat.ltb _ _); by injection Hret as <- <-.
  - destruct (parse_itmo_rating B net url) as [values|]; [| done].
    simpl in Hret.
    destruct (store_entry_spec st url now values) as (h' & Heq & _ & _).
    rewrite Heq in Hret. injection Hret as <- <-. simpl.
    eexists. by rewrite lookup_insert_eq.
Qed.

Lemma cache_wf_get (net : network) (now : float) (url : str)
    (st : AppState) (l : list ref) (st' : AppState) :
  cache_wf st ->
  get_applicants_with_cache B net now url st = Ok (l, st') ->
  NoDup l /\ cache_wf st'.
Proof.
  intros Hwf Hret.
  assert (Hwf' : cache_wf st').
  { unfold get_applicants_with_cache in Hret.
    destruct (cached_applicants st !! url) as [e|] eqn:He.
    - destruct (PrimFloat.ltb _ _); by injection Hret as <- <-.
    - destruct (parse_itmo_rating B net url) as [values|]; [| done].
      simpl in Hret. pose proof (cache_wf_store st url now values Hwf) as Hs.
      destruct (store_entry st url now values) as [l0 st0].
      by injection Hret as <- <-. }
  split; [| done].
  destruct (get_applicants_with_cache_entry _ _ _ _ _ _ Hret) as (e & He & <-).
  by destruct (Hwf' url e He).
Qed.

(** X14: the cache keeps its lists free of repeated objects: this holds
    of the empty cache, is kept by [get_applicants_with_cache], by
    [parse_and_cache] and by a worker, and every list served is then free
    of repeats. *)
Theorem cache_lists_have_distinct_objects
    (net : network) (now : float) (url : str) (st : AppState) :
  (forall h n q, cache_wf (mkState h n ∅ q)) /\
  (cache_wf st ->
   (forall l st', get_applicants_with_cache B net now url st = Ok (l, st') ->
      NoDup l /\ cache_wf st') /\
   cache_wf (parse_and_cache B net now url st) /\
   cache_wf (run_submitted B net now st)).
Proof.
  split; [intros h n q url' e; simpl; by rewrite lookup_empty |].
  intros Hwf. split_and!.
  - intros l st'. by apply cache_wf_get.
  - by apply cache_wf_parse_and_cache.
  - unfold run_submitted. destruct (submitted st); [done |].
    by apply cache_wf_parse_and_cache.
Qed.

End CacheMore.

(** ** [filter_applicants], continued *)

Section FilterMore.
Import App.
Context (B : PyBuiltins).

Lemma same_records_fields (h1 h2 : heap) (r : ref) :
  same_records h1 h2 ->
  position (h1 r) = position (h2 r) /\
  application_id (h1 r) = application_id (h2 r) /\
  exam_type (h1 r) = exam_type (h2 r) /\
  exam_score (h1 r) = exam_score (h2 r) /\
  total_score (h1 r) = total_score (h2 r) /\
  average_score (h1 r) = average_score (h2 r) /\
  priority (h1 r) = priority (h2 r) /\
  ovp (h1 r) = ovp (h2 r) /\ vpp (h1 r) = vpp (h2 r) /\
  consent (h1 r) = consent (h2 r).
Proof.
  intros Hsame. specialize (Hsame r).
  split_and!;
    [exact (f_equal position Hsame) | exact (f_equal application_id Hsame)
    | exact (f_equal exam_type Hsame) | exact (f_equal exam_score Hsame)
    | exact (f_equal total_score Hsame) | exact (f_equal average_score Hsame)
    | exact (f_equal priority Hsame) | exact (f_equal ovp Hsame)
    | exact (f_equal vpp Hsame) | exact (f_equal consent Hsame)].
Qed.

Lemma same_records_assign (h : heap) (l : list ref) (idx : Z) :
  same_records (assign_positions h l idx) h.
Proof. intros r. by rewrite assign_positions_frame. Qed.

Lemma keeps_same_records (h1 h2 : heap) (args : filter_args) (lo hi : Z) (a : ref) :
  same_records h1 h2 -> keeps B h1 args lo hi a <-> keeps B h2 args lo hi a.
Proof.
  intros Hsame.
  destruct (same_records_fields h1 h2 a Hsame)
    as (_ & Hid & Het & Hes & Hts & Has & Hp & Ho & Hv & Hc).
  unfold keeps. by rewrite Hid, Het, Hes, Hts, Has, Hp, Ho, Hv, Hc.
Qed.

Lemma cohort_same_records (h1 h2 : heap) (l : list ref) (sid : option str) :
  same_records h1 h2 -> cohort h1 l sid = cohort h2 l sid.
Proof.
  intros Hsame. unfold cohort, idx_myself.
  destruct (truthy sid && nonempty (strip (default [] sid))); [| done].
  rewrite (list_find_ext (fun a => application_id (h1 a) = strip (default [] sid))
             (fun a => application_id (h2 a) = strip (default [] sid)))
    by (intros a; by destruct (same_records_fields h1 h2 a Hsame) as (_ & -> & _)).
  destruct (list_find _ l) as [[i a]|]; [| done]. simpl.
  rewrite (list_filter_iff (fun a => exam_type (h1 a) <> s_VE)
             (fun a => exam_type (h2 a) <> s_VE))
    by (intros b; by destruct (same_records_fields h1 h2 b Hsame) as (_ & _ & -> & _)).
  rewrite (list_filter_iff (fun a => ovp (h1 a) = true) (fun a => ovp (h2 a) = true))
    by (intros b;
        by destruct (same_records_fields h1 h2 b Hsame)
          as (_ & _ & _ & _ & _ & _ & _ & -> & _)).
  rewrite (list_filter_iff (fun a => consent (h1 a) = true)
             (fun a => consent (h2 a) = true))
    by (intros b;
        by destruct (same_records_fields h1 h2 b Hsame)
          as (_ & _ & _ & _ & _ & _ & _ & _ & _ & ->)).
  done.
Qed.

(** The ranks written depend on the list only. *)
Lemma assign_positions_determined (l : list ref) (h1 h2 : heap) (idx : Z) :
  same_records h1 h2 ->
  (forall r, r ∉ l -> h1 r = h2 r) ->
  forall r, assign_positions h1 l idx r = assign_positions h2 l idx r.
Proof.
  revert h1 h2 idx. induction l as [|a l IH]; intros h1 h2 idx Hsame Hout r; simpl.
  - apply Hout, not_elem_of_nil.
  - apply IH.
    + intros r'. unfold set_filtered_position.
      destruct (Nat.eqb r' a); [| apply Hsame].
      specialize (Hsame a). unfold with_filtered_position in *. congruence.
    + intros r' Hr'. unfold set_filtered_position.
      destruct (Nat.eqb_spec r' a) as [-> | Hne].
      * specialize (Hsame a). unfold with_filtered_position in *. congruence.
      * apply Hout. rewrite not_elem_of_cons. done.
Qed.

(** X15: filtering the returned list again with the same arguments
    returns the same list, counts, cohort and ranks: the second call
    changes no object. *)
Theorem filter_applicants_again
    (h : heap) (apps : list ref) (args : filter_args)
    (h' : heap) (res : FilterResult) :
  filter_applicants B h apps args = Ok (h', res) ->
  exists h'' res',
    filter_applicants B h' (applicants res) args = Ok (h'', res') /\
    applicants res' = applicants res /\
    total_count res' = filtered_count res /\
    filtered_count res' = filtered_count res /\
    stats res' = stats res /\ stats_list res' = stats_list res /\
    (forall r, h'' r = h' r).
Proof.
  intros Hret.
  destruct (filter_applicants_inv _ _ _ _ _ _ Hret)
    as (lo & hi & Hlo & Hhi & Hh & Happs & Htot & Hcnt & Hst).
  assert (Hsame : same_records h' h) by (rewrite Hh; apply same_records_assign).
  assert (Hsrt : sorted (fun x => position (h' x))
                   (filter (keeps B h' args lo hi) (applicants res))
                 = applicants res).
  { rewrite (list_filter_iff _ (keeps B h args lo hi))
      by (intros a; by apply keeps_same_records).
    rewrite (sorted_ext _ (fun x => position (h x)))
      by (intros a; by destruct (same_records_fields h' h a Hsame) as (-> & _)).
    rewrite Happs, filter_sorted, sorted_idem. f_equal.
    rewrite list_filter_filter. apply list_filter_iff. tauto. }
  assert (Hlen : length (filter (keeps B h' args lo hi) (applicants res))
                 = filtered_count res).
  { rewrite <- (sorted_length (fun x => position (h' x))), Hsrt.
    by rewrite Hcnt, Happs, sorted_length. }
  assert (Hheap : forall r, assign_positions h' (applicants res) 1 r = h' r).
  { intros r.
    etrans; [apply (assign_positions_determined _ h' h 1 Hsame) | by rewrite Hh].
    intros r' Hr'. rewrite Hh. by apply assign_positions_other. }
  assert (Hco : cohort (assign_positions h' (applicants res) 1) (applicants res)
                  (arg_stats_id args) = (stats res, stats_list res)).
  { rewrite Hst. apply cohort_same_records. intros r. by rewrite Hheap. }
  rewrite (filter_applicants_Ok B h' (applicants res) args lo hi Hlo Hhi).
  rewrite Hsrt, Hlen, Hco. eexists _, _. split; [done |]. simpl.
  rewrite Hcnt, Happs, sorted_length in *. by split_and!.
Qed.

(** X16: when the records of the input have pairwise different
    [position]s, the whole result is the same for every order in which
    the input lists them. *)
Theorem filter_applicants_input_order
    (h : heap) (apps apps' : list ref) (args : filter_args) :
  apps ≡ₚ apps' ->
  (forall a b, a ∈ apps -> b ∈ apps -> position (h a) = position (h b) -> a = b) ->
  filter_applicants B h apps' args = filter_applicants B h apps args.
Proof.
  intros Hperm Hinj.
  destruct (arg_priority_min args) as [lo|] eqn:Hlo;
    [| by rewrite !filter_applicants_Err by auto].
  destruct (arg_priority_max args) as [hi|] eqn:Hhi;
    [| by rewrite !filter_applicants_Err by auto].
  rewrite !(filter_applicants_Ok B h _ args lo hi) by done.
  assert (Hf : filter (keeps B h args lo hi) apps'
               ≡ₚ filter (keeps B h args lo hi) apps) by (by rewrite Hperm).
  assert (Hs : sorted (fun x => position (h x)) (filter (keeps B h args lo hi) apps')
               = sorted (fun x => position (h x)) (filter (keeps B h args lo hi) apps)).
  { apply (StronglySorted_unique_strong (key_le (fun x => position (h x))));
      [| apply sorted_StronglySorted.. | by rewrite !sorted_perm].
    intros a b Ha Hb Hab Hba.
    apply elem_of_sorted, list_elem_of_filter in Ha as [_ Ha].
    apply elem_of_sorted, list_elem_of_filter in Hb as [_ Hb].
    rewrite <- Hperm in Ha. apply Hinj; [done.. |]. unfold key_le in *. lia. }
  assert (Hl1 : length (filter (keeps B h args lo hi) apps')
                = length (filter (keeps B h args lo hi) apps)) by (by rewrite Hf).
  assert (Hl2 : length apps' = length apps) by (by rewrite Hperm).
  by rewrite Hs, Hl1, Hl2.
Qed.

(** X17: the two priority bounds may be exchanged: the result is the same. *)
Theorem priority_bounds_swap
    (h : heap) (apps : list ref) (args : filter_args) (lo hi : Z) :
  filter_applicants B h apps (set_priority args (Some lo) (Some hi))
  = filter_applicants B h apps (set_priority args (Some hi) (Some lo)).
Proof.
  destruct args. unfold filter_applicants. simpl.
  replace (if lo <? hi then lo else hi) with (if hi <? lo then hi else lo)
    by (destruct (Z.ltb_spec hi lo), (Z.ltb_spec lo hi); lia).
  replace (if lo >? hi then lo else hi) with (if hi >? lo then hi else lo)
    by (destruct (Z.gtb_spec hi lo), (Z.gtb_spec lo hi); lia).
  done.
Qed.

Lemma cmp_unknown (x : float) (op : str) (r : float) :
  ~ known_operator op -> cmp x op r = true.
Proof.
  intros Hop. unfold cmp, known_operator in *.
  repeat case_decide; tauto.
Qed.

(** X18: a comparison whose operator is none of [ge], [g], [le], [l],
    [eq] drops no record: the call is the one with that comparison
    removed. *)
Theorem unknown_operator_disables_comparison
    (h : heap) (apps : list ref) (args : filter_args) :
  (forall op, arg_average_score_op args = Some op -> ~ known_operator op ->
     filter_applicants B h apps args
     = filter_applicants B h apps (set_average_score args None None)) /\
  (forall op, arg_exam_score_op args = Some op -> ~ known_operator op ->
     filter_applicants B h apps args
     = filter_applicants B h apps (set_exam_score args None None)) /\
  (forall op, arg_total_score_op args = Some op -> ~ known_operator op ->
     filter_applicants B h apps args
     = filter_applicants B h apps (set_total_score args None None)).
Proof.
  assert (Hoff : forall field op val l, ~ known_operator op ->
            score_filter B h field (Some op) val l = l).
  { intros field op val l Hop. unfold score_filter. simpl.
    destruct (nonempty op && truthy val); [| done].
    destruct (py_float B (default [] val)); [| done].
    apply filter_all. intros a. by apply cmp_unknown. }
  destruct args as [? ? ? ? ? ? ? ? ? ? ? ? pmin pmax]. simpl.
  split_and!; intros op -> Hop; unfold filter_applicants;
    cbn [arg_average_score_op arg_exam_score_op arg_total_score_op
         arg_priority_min arg_priority_max];
    (destruct pmin, pmax; [| done..]);
    cbn [py_min py_max bind]; by rewrite Hoff.
Qed.

(** X19: on an input of pairwise distinct objects, a cohort that is
    reported is the list in front of the target: [stats_list] is the
    first [total_before_me] returned records, the target is the next one,
    its [filtered_position] is [total_before_me + 1], it is not in
    [stats_list], and none of the three counts exceeds [total_before_me]. *)
Theorem cohort_is_the_rank_before
    (h : heap) (apps : list ref) (args : filter_args)
    (h' : heap) (res : FilterResult) (n b o c : nat) (me : ref) :
  NoDup apps ->
  filter_applicants B h apps args = Ok (h', res) ->
  stats res = StatsCohort n b o c me ->
  stats_list res = take n (applicants res) /\
  applicants res !! n = Some me /\
  filtered_position (h' me) = Z.of_nat n + 1 /\
  (me ∉ stats_list res) /\
  (b <= n)%nat /\ (o <= n)%nat /\ (c <= n)%nat.
Proof.
  intros Hnd Hret Hstats.
  destruct (filter_applicants_inv _ _ _ _ _ _ Hret)
    as (lo & hi & Hlo & Hhi & Hh & Happs & Htot & Hcnt & Hst).
  assert (Hnds : NoDup (applicants res)).
  { rewrite Happs, sorted_perm. by apply NoDup_filter. }
  rewrite Hstats in Hst. unfold cohort, idx_myself in Hst.
  destruct (truthy (arg_stats_id args) && _); [| done].
  destruct (list_find _ (applicants res)) as [[i a]|] eqn:Hfind; [| done].
  simpl in Hst. apply list_find_Some in Hfind as (Hi & _ & _).
  pose proof (lookup_lt_Some _ _ _ Hi) as Hlt.
  rewrite length_take_le, (nth_lookup_Some _ _ _ _ Hi) in Hst by lia.
  injection Hst as -> -> -> -> -> ->.
  split_and!; try done.
  - pose proof (assign_positions_NoDup (applicants res) h 1 Hnds) as Hranks.
    rewrite <- Hh in Hranks.
    apply (f_equal (fun l => l !! i)) in Hranks.
    rewrite !list_lookup_fmap, Hi, lookup_seq_lt in Hranks by done.
    simpl in Hranks. injection Hranks as ->. lia.
  - intros Hin. apply elem_of_take in Hin as (j & Hj & Hji).
    pose proof (NoDup_lookup _ _ _ _ Hnds Hj Hi). lia.
  - etrans; [apply length_filter |]. rewrite length_take. lia.
  - etrans; [apply length_filter |]. rewrite length_take. lia.
  - etrans; [apply length_filter |]. rewrite length_take. lia.
Qed.

End FilterMore.

(** ** The route *)

Section RouteTheorems.
Import App.
Context (B : PyBuiltins).

(** X20: the exam types offered are exactly the non-blank [exam_type]s of
    the records listed; the set of a concatenation is the union of the
    sets, and it does not depend on [filtered_position]. *)
Theorem exam_types_offered (h : heap) (l : list ref) :
  (forall t, t ∈ get_unique_exam_types h l <->
     strip t <> [] /\ exists a, a ∈ l /\ exam_type (h a) = t) /\
  (forall l2, get_unique_exam_types h (l ++ l2)
              = get_unique_exam_types h l ∪ get_unique_exam_types h l2) /\
  (forall h2, same_records h h2 ->
     get_unique_exam_types h2 l = get_unique_exam_types h l).
Proof.
  unfold get_unique_exam_types. split_and!.
  - intros t. rewrite elem_of_list_to_set, list_elem_of_In, in_map_iff. split.
    + intros (a & <- & Ha). apply list_elem_of_In, list_elem_of_filter in Ha.
      destruct Ha. eauto.
    + intros (Hne & a & Ha & <-). exists a. split; [done |].
      apply list_elem_of_In, list_elem_of_filter. done.
  - intros l2. by rewrite filter_app, List.map_app, list_to_set_app_L.
  - intros h2 Hsame. f_equal.
    rewrite (list_filter_iff _ (fun app => strip (exam_type (h app)) <> []))
      by (intros a; by destruct (same_records_fields h h2 a Hsame) as (_ & _ & -> & _)).
    apply List.map_ext. intros a.
    by destruct (same_records_fields h h2 a Hsame) as (_ & _ & -> & _).
Qed.

(** A priority field gives no bound when it is absent, empty or not an
    integer. *)
Lemma form_priority_None (f : form) (key : string) :
  form_priority B f key = None <->
  f !! key = None \/ exists s, f !! key = Some s /\ (s = [] \/ py_int B s = None).
Proof.
  unfold form_priority. destruct (f !! key) as [s|]; [| by split; auto].
  destruct s as [|c s]; simpl.
  - split; [eauto | done].
  - split.
    + intros H. right. eauto.
    + intros [? | (s' & [= <-] & [? | ?])]; done.
Qed.

(** X21: a [POST] in which a priority field is absent, empty or not an
    integer never lists anything: the page carries an error, no
    applicant, and both counts 0. *)
Theorem index_post_blank_priority
    (net : network) (now : float) (f : form) (ad : AppData) :
  form_priority B f "priority_min" = None \/
  form_priority B f "priority_max" = None ->
  page_error (index B net now POST f ad).1 <> None /\
  page_applicants (index B net now POST f ad).1 = [] /\
  page_total_count (index B net now POST f ad).1 = 0%nat /\
  page_filtered_count (index B net now POST f ad).1 = 0%nat /\
  page_stats (index B net now POST f ad).1 = StatsEmpty.
Proof.
  intros Hblank. unfold index.
  destruct (get_applicants_with_cache B net now _ (app_state ad))
    as [[l st]|e]; [| done].
  by rewrite (filter_applicants_Err B (objects st) l (form_args B f) Hblank).
Qed.

(** X22: a [GET] never lists applicants, and once exam types are known it
    neither calls the cache nor changes [app_data]. *)
Theorem index_get_lists_nothing
    (net : network) (now : float) (f : form) (ad : AppData) :
  page_applicants (index B net now GET f ad).1 = [] /\
  page_total_count (index B net now GET f ad).1 = 0%nat /\
  page_filtered_count (index B net now GET f ad).1 = 0%nat /\
  page_filters (index B net now GET f ad).1 = default_filters /\
  (exam_types ad <> ∅ ->
     (index B net now GET f ad).2 = ad /\
     page_error (index B net now GET f ad).1 = None).
Proof.
  unfold index. destruct (decide (exam_types ad = ∅)) as [He | He].
  - destruct (get_applicants_with_cache B net now default_url (app_state ad))
      as [[l st]|e]; by split_and!.
  - by split_and!.
Qed.

(** X23: a [POST] that renders without error, on a cache whose lists are
    free of repeated objects, shows records of the list cached for the
    address, ascending by [position], carrying the ranks
    [1 .. filtered_count] in the state it leaves, with
    [filtered_count] the number shown and [total_count] the size of the
    cached list. *)
Theorem index_post_page
    (net : network) (now : float) (f : form) (ad : AppData) :
  cache_wf (app_state ad) ->
  page_error (index B net now POST f ad).1 = None ->
  let p := (index B net now POST f ad).1 in
  let st' := app_state (index B net now POST f ad).2 in
  StronglySorted (key_le (fun a => position (objects st' a))) (page_applicants p) /\
  List.map (fun a => filtered_position (objects st' a)) (page_applicants p)
  = ranks (page_filtered_count p) /\
  page_filtered_count p = length (page_applicants p) /\
  exists e, cached_applicants st' !! form_get f "url" default_url = Some e /\
    page_applicants p ⊆+ data e /\
    page_total_count p = length (data e).
Proof.
  intros Hwf. unfold index.
  destruct (get_applicants_with_cache B net now _ (app_state ad))
    as [[l st]|e] eqn:Hget; [| done].
  destruct (cache_wf_get _ _ _ _ _ _ _ Hwf Hget) as [Hnd Hwf'].
  destruct (get_applicants_with_cache_entry _ _ _ _ _ _ _ Hget) as (e & He & <-).
  destruct (filter_applicants B (objects st) (data e) (form_args B f))
    as [[h' res]|err] eqn:Hret; [| done].
  intros _. simpl.
  destruct (filter_applicants_inv _ _ _ _ _ _ Hret)
    as (lo & hi & Hlo & Hhi & Hh & Happs & Htot & Hcnt & Hst).
  assert (Hnds : NoDup (applicants res)).
  { rewrite Happs, sorted_perm. by apply NoDup_filter. }
  split_and!.
  - rewrite Happs.
    rewrite (sorted_ext _ (fun a => position (h' a)))
      by (intros a; rewrite Hh; symmetry; apply returned_fields).
    apply sorted_StronglySorted.
  - rewrite Hh, assign_positions_NoDup by done.
    rewrite Hcnt, Happs, sorted_length. unfold ranks.
    rewrite <- seq_shift, List.map_map. apply List.map_ext. intros k. lia.
  - by rewrite Hcnt, Happs, sorted_length.
  - exists e. split_and!; [done | | done].
    rewrite Happs, sorted_perm. apply sublist_submseteq, sublist_filter.
Qed.

(** X24: every request keeps the cached lists free of repeated objects,
    whether it renders an error or not. *)
Theorem index_keeps_cache_wf
    (net : network) (now : float) (m : method) (f : form) (ad : AppData) :
  cache_wf (app_state ad) -> cache_wf (app_state (index B net now m f ad).2).
Proof.
  intros Hwf. unfold index. destruct m.
  - destruct (decide (exam_types ad = ∅)) as [Hnone | Hsome]; [| done].
    destruct (get_applicants_with_cache B net now default_url (app_state ad))
      as [[l st]|err] eqn:Hget; [| done].
    by destruct (cache_wf_get _ _ _ _ _ _ _ Hwf Hget).
  - destruct (get_applicants_with_cache B net now _ (app_state ad))
      as [[l st]|e] eqn:Hget; [| done].
    destruct (cache_wf_get _ _ _ _ _ _ _ Hwf Hget) as [_ Hwf'].
    by destruct (filter_applicants B (objects st) l (form_args B f)) as [[h' res]|].
Qed.

End RouteTheorems.

(** ** The further properties at the sample data *)

Lemma sample_state_wf : cache_wf sample_state.
Proof.
  intros url e. unfold sample_state. simpl.
  destruct (decide (url = sample_url)) as [-> | Hne].
  - rewrite lookup_singleton_eq. intros [= <-]. simpl. split.
    + apply (bool_decide_unpack _). vm_compute. exact I.
    + repeat constructor.
  - by rewrite lookup_singleton_ne.
Qed.

Lemma main_unfiltered_one_record_per_card_witness :
  exists l,
    Main.parse_itmo_rating sample_builtins (fun _ => Some good_page) sample_url
      None None None = Ok l /\
    length l = length (cards good_page) /\ l <> [].
Proof.
  eexists. split; [vm_compute; reflexivity |].
  edestruct (main_unfiltered_one_record_per_card sample_builtins
               (fun _ => Some good_page) sample_url)
    as (r & Hr & _ & _ & Hlen & Hne); [vm_compute; reflexivity |].
  injection Hr as <-. split; [exact Hlen | exact Hne].
Defined.

Lemma main_any_bad_card_raises_witness :
  exists e', Main.parse_itmo_rating sample_builtins (fun _ => Some sample_page)
               sample_url (Some true) None None = Err (Exception e').
Proof.
  apply (main_any_bad_card_raises sample_builtins (fun _ => Some sample_page)
           sample_url sample_page (card "3" "103" None) AttributeError).
  - reflexivity.
  - apply list_elem_of_lookup. by exists 2%nat.
  - vm_compute. reflexivity.
Defined.

Lemma main_filtered_is_filter_of_unfiltered_witness :
  Main.parse_itmo_rating sample_builtins (fun _ => Some good_page) sample_url
    (Some true) None None
  = rmap (fun l => Main.filter_applicants l (Some true) None None)
         (Main.parse_itmo_rating sample_builtins (fun _ => Some good_page)
            sample_url None None None).
Proof.
  apply (main_filtered_is_filter_of_unfiltered sample_builtins). reflexivity.
Defined.

Lemma card_parsers_agree_witness :
  exists a,
    App.card_to_applicant sample_builtins (card " 1 " "101" (Some (lit "1")))
    = Ok a /\
    Main.parse_applicant_card sample_builtins (card " 1 " "101" (Some (lit "1")))
    = Ok (to_main a) /\
    App.filtered_position a = 0.
Proof.
  eexists. split; [vm_compute; reflexivity |].
  apply (card_parsers_agree sample_builtins). vm_compute. reflexivity.
Defined.

Lemma missing_average_score_witness :
  exists a,
    Main.parse_applicant_card sample_builtins card_without_average = Ok a /\
    Main.average_score a = 0%float /\
    exists e, App.card_to_applicant sample_builtins card_without_average = Err e.
Proof.
  destruct (missing_average_score sample_builtins card_without_average eq_refl)
    as [Happ Hmain].
  eexists. split; [vm_compute; reflexivity |]. split; [| exact Happ].
  apply Hmain. vm_compute. reflexivity.
Defined.

Lemma cache_miss_then_hit_witness :
  exists refs st',
    App.get_applicants_with_cache sample_builtins (fun _ => Some sample_page)
      1000 sample_url empty_state = Ok (refs, st') /\
    refs = [3; 4; 5; 6; 7]%nat /\
    App.get_applicants_with_cache sample_builtins offline 1299.5 sample_url st'
    = Ok (refs, st').
Proof.
  edestruct (cache_miss_then_hit sample_builtins (fun _ => Some sample_page) 1000
               sample_url empty_state)
    as (refs & st' & Hget & _ & _ & _ & Hhit);
    [vm_compute; reflexivity | vm_compute; reflexivity |].
  exists refs, st'. split; [exact Hget |]. split.
  - vm_compute in Hget. by injection Hget as <- _.
  - apply Hhit. vm_compute. reflexivity.
Defined.

Lemma refresh_replaces_entry_witness :
  exists refs,
    App.cached_applicants
      (App.parse_and_cache sample_builtins (fun _ => Some good_page) 1400
         sample_url sample_state) !! sample_url
    = Some (App.mkEntry 1400 refs) /\
    NoDup refs /\
    Forall (fun r => (3 <= r)%nat) refs /\
    forall r, (r < 3)%nat ->
      App.objects (App.parse_and_cache sample_builtins (fun _ => Some good_page)
                     1400 sample_url sample_state) r
      = sample_heap r.
Proof.
  edestruct (refresh_replaces_entry sample_builtins (fun _ => Some good_page) 1400
               sample_url sample_state)
    as (refs & He & _ & Hnd & Hfresh & Hold); [vm_compute; reflexivity |].
  exists refs. split_and!; [exact He | exact Hnd | exact Hfresh | exact Hold].
Defined.

Lemma filter_applicants_again_witness :
  exists h' res h'' res',
    App.filter_applicants sample_builtins sample_heap [2; 0; 1]%nat
      range_and_target = Ok (h', res) /\
    App.filter_applicants sample_builtins h' (App.applicants res)
      range_and_target = Ok (h'', res') /\
    App.applicants res' = App.applicants res /\
    App.stats res' = App.stats res /\
    forall r, h'' r = h' r.
Proof.
  eexists _, _.
  edestruct (filter_applicants_again sample_builtins sample_heap [2; 0; 1]%nat
               range_and_target)
    as (h'' & res' & Hret' & Happs & _ & _ & Hstats & _ & Hheap);
    [reflexivity |].
  exists h'', res'. split_and!; [reflexivity | exact Hret' | exact Happs
                                | exact Hstats | exact Hheap].
Defined.

Lemma filter_applicants_input_order_witness :
  App.filter_applicants sample_builtins sample_heap [0; 1; 2]%nat range_only
  = App.filter_applicants sample_builtins sample_heap [2; 0; 1]%nat range_only.
Proof.
  apply (filter_applicants_input_order sample_builtins sample_heap
           [2; 0; 1]%nat [0; 1; 2]%nat range_only).
  - exact (Permutation_cons_append [0; 1]%nat 2%nat).
  - intros a b Ha Hb.
    apply list_elem_of_In in Ha, Hb. simpl in Ha, Hb.
    destruct Ha as [<- | [<- | [<- | []]]], Hb as [<- | [<- | [<- | []]]];
      vm_compute; congruence.
Defined.

Lemma cohort_is_the_rank_before_witness :
  exists h' res,
    App.filter_applicants sample_builtins sample_heap [2; 0; 1]%nat
      range_and_target = Ok (h', res) /\
    App.stats res = App.StatsCohort 2 1 1 2 2%nat /\
    App.stats_list res = take 2 (App.applicants res) /\
    App.applicants res !! 2%nat = Some 2%nat /\
    App.filtered_position (h' 2%nat) = 3.
Proof.
  eexists _, _. split; [reflexivity |]. split; [reflexivity |].
  edestruct (cohort_is_the_rank_before sample_builtins sample_heap [2; 0; 1]%nat
               range_and_target)
    as (Hlist & Hme & Hrank & _);
    [apply (bool_decide_unpack _); vm_compute; exact I
    | reflexivity | reflexivity |].
  split_and!; [exact Hlist | exact Hme | exact Hrank].
Defined.

Lemma unknown_operator_disables_comparison_witness :
  ~ known_operator (lit "ne") /\
  App.filter_applicants sample_builtins sample_heap [2; 0; 1]%nat odd_operator
  = App.filter_applicants sample_builtins sample_heap [2; 0; 1]%nat
      (set_average_score odd_operator None None).
Proof.
  assert (Hop : ~ known_operator (lit "ne")).
  { unfold known_operator. intros [H | [H | [H | [H | H]]]]; discriminate. }
  split; [exact Hop |].
  destruct (unknown_operator_disables_comparison sample_builtins sample_heap
              [2; 0; 1]%nat odd_operator) as (Havg & _ & _).
  apply (Havg (lit "ne")); [reflexivity | exact Hop].
Defined.

Lemma index_post_blank_priority_witness :
  App.form_priority sample_builtins blank_form "priority_max" = None /\
  App.page_error (App.index sample_builtins offline 1100 App.POST blank_form
                    sample_data).1 = Some TypeError /\
  App.page_applicants (App.index sample_builtins offline 1100 App.POST blank_form
                         sample_data).1 = [].
Proof.
  split; [reflexivity |]. split; [vm_compute; reflexivity |].
  apply (index_post_blank_priority sample_builtins offline 1100 blank_form
           sample_data).
  right. reflexivity.
Defined.

Lemma index_post_page_witness :
  App.page_error (App.index sample_builtins offline 1100 App.POST sample_form
                    sample_data).1 = None /\
  App.page_applicants (App.index sample_builtins offline 1100 App.POST sample_form
                         sample_data).1 = [1; 0; 2]%nat /\
  List.map
    (fun a => App.filtered_position
                (App.objects
                   (App.app_state
                      (App.index sample_builtins offline 1100 App.POST
                         sample_form sample_data).2) a))
    (App.page_applicants (App.index sample_builtins offline 1100 App.POST
                            sample_form sample_data).1)
  = ranks (App.page_filtered_count
             (App.index sample_builtins offline 1100 App.POST sample_form
                sample_data).1).
Proof.
  assert (Hok : App.page_error (App.index sample_builtins offline 1100 App.POST
                                  sample_form sample_data).1 = None)
    by (vm_compute; reflexivity).
  split; [exact Hok |]. split; [vm_compute; reflexivity |].
  destruct (index_post_page sample_builtins offline 1100 sample_form sample_data
              sample_state_wf Hok) as (_ & Hranks & _).
  exact Hranks.
Defined.

Lemma index_keeps_cache_wf_witness :
  cache_wf (App.app_state
              (App.index sample_builtins (fun _ => Some sample_page) 1400
                 App.POST sample_form sample_data).2).
Proof.
  apply (index_keeps_cache_wf sample_builtins). exact sample_state_wf.
Defined.

Lemma empty_refresh_replaces_entry_witness :
  App.cached_applicants sample_state !! sample_url
  = Some (App.mkEntry 1000 [0; 1; 2]%nat) /\
  App.cached_applicants
    (App.parse_and_cache sample_builtins (fun _ => Some empty_page) 1400
       sample_url sample_state) !! sample_url
  = Some (App.mkEntry 1400 []).
Proof.
  split; [vm_compute; reflexivity |].
  apply (empty_refresh_replaces_entry sample_builtins (fun _ => Some empty_page)
           1400 sample_url sample_state empty_page); reflexivity.
Defined.
